(** * The network crawler of fantom-api-graphql: node records, their
      persistence encoding, list page information and the crawler service.

    The development follows four source files:
    - [types]     the [NetworkNode] record with [MarshalBSON]/[UnmarshalBSON];
    - [resolvers] [NewListPageInfo];
    - [svc]       the [networkCrawler] service, in the two versions the
                  repository holds: the one reading [cfg.Lachesis]
                  (module [Lachesis]) and the one reading [cfg.LocalNode]
                  and [cfg.Sig] (module [Svc]).

    Third-party packages are not part of the repository.  go-ethereum's
    [enode], [crypto] and [discover] and the [net] package enter as
    interfaces ([EnodeLib], [HostTypes], [HostOps]) whose operations the code
    calls; the BSON driver is kept to the documents it reads and writes. *)

From Stdlib Require Import ZArith List String Ascii Bool Lia DecimalString.
From stdpp Require Import base list strings.

Import ListNotations.
Local Open Scope string_scope.
Local Open Scope Z_scope.
Local Open Scope list_scope.

(** ** Go values used throughout *)
Module Go.

(** An [error] value is represented by its message ([err.Error()]). *)
Definition error := string.

(** A Go pair [(v, err)] in which exactly one side is meaningful. *)
Inductive result (A : Type) : Type :=
| Ok (a : A)
| Err (e : error).
Arguments Ok {A} a.
Arguments Err {A} e.

Definition is_ok {A} (r : result A) : bool :=
  match r with Ok _ => true | Err _ => false end.

(** The value half of [(v, err)]: a pointer result is [nil] on error. *)
Definition value {A} (r : result A) : option A :=
  match r with Ok a => Some a | Err _ => None end.

(** The error half of [(v, err)]. *)
Definition failure {A} (r : result A) : option error :=
  match r with Ok _ => None | Err e => Some e end.

(** [strings.HasPrefix(s, prefix)]:
    [len(s) >= len(prefix) && s[:len(prefix)] == prefix]. *)
Definition HasPrefix (s prefix : string) : bool :=
  (String.length prefix <=? String.length s)%nat
  && String.eqb (String.substring 0 (String.length prefix) s) prefix.

(** [time.Time]: an instant, in nanoseconds counted from the zero value of
    the type.  The code under study only stores, copies and compares
    instants; the location a [time.Time] carries is not kept. *)
Definition Time := Z.
Definition zeroTime : Time := 0.

(** State passing with panics: [None] is a run-time panic (a nil pointer
    dereference or an index out of range). *)
Definition M (S A : Type) : Type := S -> option (A * S).

Definition ret {S A} (a : A) : M S A := fun s => Some (a, s).
Definition bind {S A B} (m : M S A) (k : A -> M S B) : M S B :=
  fun s => match m s with
           | Some (a, s') => k a s'
           | None => None
           end.
Definition get {S} : M S S := fun s => Some (s, s).
Definition modify {S} (f : S -> S) : M S unit := fun s => Some (tt, f s).
Definition panic {S A} : M S A := fun _ => None.

(** [*p] for a pointer [p]: panics on [nil]. *)
Definition deref {S A} (p : option A) : M S A :=
  match p with Some a => ret a | None => panic end.

End Go.
Export Go.

Declare Scope go_scope.
Delimit Scope go_scope with go.
Notation "x <- m ;; k" := (bind m (fun x => k))
  (at level 100, m at next level, right associativity) : go_scope.
Notation "m ;;; k" := (bind m (fun _ => k))
  (at level 100, right associativity) : go_scope.

(** ** The [enode] package, as the code uses it *)

(** [enode.Node] with its three operations the repository calls:
    [Node.String], [enode.ParseV4] and [enode.Parse(enode.ValidSchemes, _)].
    A parser stands for the answers of one run: the library resolves host
    names when it parses, so nothing here compares two parses of one URL
    made at different times. *)
Class EnodeLib := {
  enode_Node : Type;
  Node_String : enode_Node -> string;
  enode_ParseV4 : string -> result enode_Node;
  enode_Parse : string -> result enode_Node;
}.

(** ** Package [types]: the node record and its stored form *)
Module Types.
Section Defs.
Context `{EnodeLib}.

(** [type NetworkNode struct]; [Node] is a pointer and may be [nil]. *)
Record NetworkNode := mkNetworkNode {
  Node : option enode_Node;
  Score : Z;
  Found : Time;
  LastResponse : Time;
  LastCheck : Time;
}.

(** A BSON document, as the ordered sequence of its elements.  The [[]byte]
    exchanged with the driver is represented by the document handed to it; a
    datetime element names the [time.Time] it was written from. *)
Inductive bson_value :=
| BString (s : string)
| BInt (z : Z)
| BDateTime (t : Time).

Definition document := list (string * bson_value).

(** The anonymous struct both methods declare ([pom] and [row]). *)
Record row := mkRow {
  rScheme : string;
  rURL : string;
  rScore : Z;
  rFound : Time;
  rResponded : Time;
  rChecked : Time;
}.

Definition zeroRow : row := mkRow "" "" 0 zeroTime zeroTime zeroTime.

(** [bson.Marshal] of that struct: one element per field, keyed by the
    field's [bson:"..."] tag, in declaration order. *)
Definition bson_Marshal (r : row) : result document :=
  Ok [ ("scheme", BString (rScheme r));
       ("url",    BString (rURL r));
       ("score",  BInt (rScore r));
       ("found",  BDateTime (rFound r));
       ("valid",  BDateTime (rResponded r));
       ("check",  BDateTime (rChecked r)) ].

(** The driver stores a datetime as whole milliseconds (UTC): this is the
    instant a stored [time.Time] reads back as. *)
Definition millis (t : Time) : Time := t / 1000000 * 1000000.

(** [strings.ToLower] on the ASCII letters (the tags of the struct are
    ASCII). *)
Definition lowerAscii (a : ascii) : ascii :=
  let n := nat_of_ascii a in
  if ((65 <=? n) && (n <=? 90))%nat then ascii_of_nat (n + 32) else a.

Fixpoint ToLower (s : string) : string :=
  match s with
  | EmptyString => EmptyString
  | String a s' => String (lowerAscii a) (ToLower s')
  end.

(** The [bson] tags of the struct. *)
Definition isTag (k : string) : bool :=
  String.eqb k "scheme" || String.eqb k "url" || String.eqb k "score"
  || String.eqb k "found" || String.eqb k "valid" || String.eqb k "check".

(** Decoding one element into the struct: the element's key selects the
    field by tag, and when no tag is that key, by the key in lower case; a
    value of another kind than the field's is an error, a key no field
    carries is skipped.  A datetime is read back in whole milliseconds. *)
Definition decodeElement (r : row) (el : string * bson_value) : result row :=
  let '(name, v) := el in
  let k := if isTag name then name else ToLower name in
  if String.eqb k "scheme" then
    match v with
    | BString s => Ok (mkRow s (rURL r) (rScore r) (rFound r) (rResponded r) (rChecked r))
    | _ => Err "cannot decode into a string type"
    end
  else if String.eqb k "url" then
    match v with
    | BString s => Ok (mkRow (rScheme r) s (rScore r) (rFound r) (rResponded r) (rChecked r))
    | _ => Err "cannot decode into a string type"
    end
  else if String.eqb k "score" then
    match v with
    | BInt z => Ok (mkRow (rScheme r) (rURL r) z (rFound r) (rResponded r) (rChecked r))
    | _ => Err "cannot decode into an integer type"
    end
  else if String.eqb k "found" then
    match v with
    | BDateTime t =>
        Ok (mkRow (rScheme r) (rURL r) (rScore r) (millis t) (rResponded r) (rChecked r))
    | _ => Err "cannot decode into a time.Time"
    end
  else if String.eqb k "valid" then
    match v with
    | BDateTime t =>
        Ok (mkRow (rScheme r) (rURL r) (rScore r) (rFound r) (millis t) (rChecked r))
    | _ => Err "cannot decode into a time.Time"
    end
  else if String.eqb k "check" then
    match v with
    | BDateTime t =>
        Ok (mkRow (rScheme r) (rURL r) (rScore r) (rFound r) (rResponded r) (millis t))
    | _ => Err "cannot decode into a time.Time"
    end
  else Ok r.

(** [bson.Unmarshal(data, &row)] on a zero [row]: the elements are decoded
    in document order; fields without an element keep their zero value. *)
Fixpoint decodeElements (d : document) (r : row) : result row :=
  match d with
  | [] => Ok r
  | el :: d' =>
      match decodeElement r el with
      | Ok r' => decodeElements d' r'
      | Err e => Err e
      end
  end.

Definition bson_Unmarshal (data : document) : result row :=
  decodeElements data zeroRow.

(** [func (nn *NetworkNode) MarshalBSON() ([]byte, error)].
    [nn.Node.String()] dereferences the node: a [nil] node panics. *)
Definition MarshalBSON : M NetworkNode (result document) :=
  (nn <- get ;;
   n <- deref (Node nn) ;;
   let pom := mkRow "v4" (Node_String n) (Score nn) (Found nn)
                    (LastResponse nn) (LastCheck nn) in
   ret (bson_Marshal pom))%go.

(** [func (nn *NetworkNode) UnmarshalBSON(data []byte) (err error)].
    The result is the returned [err] ([None] for [nil]); the state is the
    receiver. *)
Definition UnmarshalBSON (data : document) : M NetworkNode (option error) :=
  match bson_Unmarshal data with
  | Err e => ret (Some e)
  | Ok row =>
      (* nn.Node, err = enode.Parse(enode.ValidSchemes, row.URL) *)
      let parsed := enode_Parse (rURL row) in
      (modify (fun nn => mkNetworkNode (value parsed) (Score nn) (Found nn)
                                       (LastResponse nn) (LastCheck nn)) ;;;
       match parsed with
       | Err e => ret (Some e)
       | Ok _ =>
           modify (fun nn => mkNetworkNode (Node nn) (rScore row) (Found nn)
                                           (LastResponse nn) (LastCheck nn)) ;;;
           modify (fun nn => mkNetworkNode (Node nn) (Score nn) (rFound row)
                                           (LastResponse nn) (LastCheck nn)) ;;;
           modify (fun nn => mkNetworkNode (Node nn) (Score nn) (Found nn)
                                           (rResponded row) (LastCheck nn)) ;;;
           modify (fun nn => mkNetworkNode (Node nn) (Score nn) (Found nn)
                                           (LastResponse nn) (rChecked row)) ;;;
           ret None
       end)%go
  end.



End Defs.
End Types.

(** ** Package [resolvers]: list page information *)
Module Resolvers.
Section Defs.
(** [type Cursor] is declared elsewhere in the package; only pointers to it
    are handled here. *)
Variable Cursor : Type.

Record ListPageInfo := mkListPageInfo {
  First : option Cursor;
  Last : option Cursor;
  HasNext : bool;
  HasPrevious : bool;
}.

Definition isNil {A} (p : option A) : bool :=
  match p with None => true | Some _ => false end.

(** [func NewListPageInfo(first, last, hasNext, hasPrevious)], returning a
    [ListPageInfo] pointer and an [error]. *)
Definition NewListPageInfo (first last : option Cursor)
    (hasNext hasPrevious : bool) : option ListPageInfo * option error :=
  if isNil first || isNil last then
    (None, Some "missing one of the cursors")
  else
    (Some (mkListPageInfo first last hasNext hasPrevious), None).

End Defs.
Arguments First {Cursor} _.
Arguments Last {Cursor} _.
Arguments HasNext {Cursor} _.
Arguments HasPrevious {Cursor} _.
Arguments mkListPageInfo {Cursor} _ _ _ _.
End Resolvers.

(** ** Package [svc]: the network crawler service *)

(** Opaque handles of the packages the service drives. *)
Class HostTypes := {
  ecdsa_PrivateKey : Type;
  enode_DB : Type;
  discover_UDPv5 : Type;
}.

Module Net.
(** [net.IP] is a byte slice. *)
Definition IP := list Z.

(** [net.UDPAddr] *)
Record UDPAddr := mkUDPAddr { addrIP : IP; addrPort : Z }.

(** The packet connection [net.ListenPacket] returns, by its local address. *)
Record PacketConn := mkPacketConn { LocalAddr : UDPAddr }.
End Net.

Module Discover.
Section Defs.
Context `{EnodeLib} `{HostTypes}.

(** [discover.Config], with the two fields the service fills in. *)
Record Config := mkConfig {
  PrivateKey : option ecdsa_PrivateKey;
  Bootnodes : list (option enode_Node);
}.

(** [enode.LocalNode]: the database and key it was made from, and the
    fallback endpoint the service sets.  What the library does with a nil
    database or key inside [NewLocalNode] is its own matter and is not
    followed here. *)
Record LocalNode := mkLocalNode {
  lnDB : option enode_DB;
  lnKey : option ecdsa_PrivateKey;
  lnFallbackIP : option Net.IP;
  lnFallbackUDP : option Z;
}.

Definition NewLocalNode (db : option enode_DB) (key : option ecdsa_PrivateKey)
  : LocalNode := mkLocalNode db key None None.
Definition SetFallbackIP (ip : Net.IP) (ln : LocalNode) : LocalNode :=
  mkLocalNode (lnDB ln) (lnKey ln) (Some ip) (lnFallbackUDP ln).
Definition SetFallbackUDP (port : Z) (ln : LocalNode) : LocalNode :=
  mkLocalNode (lnDB ln) (lnKey ln) (lnFallbackIP ln) (Some port).
End Defs.
End Discover.
Export Discover.

(** The library calls of the service whose outcome the environment decides. *)
Class HostOps `{EnodeLib} `{HostTypes} := {
  crypto_GenerateKey : result ecdsa_PrivateKey;
  crypto_HexToECDSA : string -> result ecdsa_PrivateKey;
  enode_OpenDB : string -> result enode_DB;
  net_ListenPacket : string -> string -> result Net.PacketConn;
  IP_IsUnspecified : Net.IP -> bool;
  discover_ListenV5 : Net.PacketConn -> LocalNode -> Config -> result discover_UDPv5;
}.

(** What the service does that its surroundings can observe. *)
Inductive event :=
| EvCritical (msg : string)       (* log.Criticalf *)
| EvNewLocalNode                  (* enode.NewLocalNode *)
| EvStarted (svc : string)        (* nec.mgr.started(nec) *)
| EvGo (fn : string)              (* go nec.crawl() *)
| EvDiscClose                     (* nec.disc.Close() *)
| EvFinished (svc : string).      (* nec.mgr.finished(nec) *)

(** A buffered [chan bool]. *)
Record chan := mkChan { capacity : nat; buffer : list bool }.

(** The parts both versions of the service share word for word. *)
Module Bootstrap.
Section Defs.
Context `{EnodeLib} `{HostTypes}.

(** [func url2node(url string)], returning a node pointer and an [error]. *)
Definition url2node (url : string) : result enode_Node :=
  if negb (HasPrefix url "enode://") then
    Err ("invalid enode url [" +:+ url +:+ "]")
  else enode_ParseV4 url.

(** [nec.cfg.Bootnodes[i] = n]; an index out of range panics. *)
Definition assignBootnode (i : nat) (n : option enode_Node) : M Config unit :=
  fun c =>
    if (i <? length (Bootnodes c))%nat then
      Some (tt, mkConfig (PrivateKey c) (<[i := n]> (Bootnodes c)))
    else None.

(** [for i, url := range urls { ... }], from index [i] on. *)
Fixpoint bootstrapLoop (i : nat) (urls : list string) : M Config (option error) :=
  match urls with
  | [] => ret None
  | url :: rest =>
      let r := url2node url in
      (assignBootnode i (value r) ;;;
       match r with
       | Err e => ret (Some e)
       | Ok _ => bootstrapLoop (S i) rest
       end)%go
  end.

(** The body of [setBootstrap] on the configuration [nec.cfg] points to;
    [urls] is the configured [V5Bootstrap] list. *)
Definition setBootstrapOn (urls : list string) : M Config (option error) :=
  (modify (fun c => mkConfig (PrivateKey c) (replicate (length urls) None)) ;;;
   bootstrapLoop 0 urls)%go.
End Defs.
End Bootstrap.
Export Bootstrap.

(** *** The version reading [cfg.LocalNode] and [cfg.Sig] *)
Module Svc.
Section Defs.
Context `{EnodeLib} `{HostTypes} `{!HostOps}.

(** The fields of the process-wide [cfg] this version reads. *)
Record AppConfig := mkAppConfig {
  Sig_PrivateKey : option ecdsa_PrivateKey;
  LocalNode_V5Bootstrap : list string;
  LocalNode_DbPath : string;
  LocalNode_BindAddress : string;
}.

Variable Cfg : AppConfig.

(** [type networkCrawler struct]; [sigStop] comes from the embedded
    [service]. *)
Record networkCrawler := mkCrawler {
  cfg : option Config;
  db : option enode_DB;
  node : option LocalNode;
  disc : option discover_UDPv5;
  isReady : bool;
  sigStop : option chan;
}.

(** The crawler together with what it has emitted so far. *)
Record world := mkWorld { nec : networkCrawler; trace : list event }.

Definition emit (e : event) : M world unit :=
  modify (fun w => mkWorld (nec w) (trace w ++ [e])).
Definition log_Criticalf (msg : string) : M world unit := emit (EvCritical msg).
Definition update (f : networkCrawler -> networkCrawler) : M world unit :=
  modify (fun w => mkWorld (f (nec w)) (trace w)).

Definition set_cfg (c : option Config) (n : networkCrawler) :=
  mkCrawler c (db n) (node n) (disc n) (isReady n) (sigStop n).
Definition set_db (d : option enode_DB) (n : networkCrawler) :=
  mkCrawler (cfg n) d (node n) (disc n) (isReady n) (sigStop n).
Definition set_node (l : option LocalNode) (n : networkCrawler) :=
  mkCrawler (cfg n) (db n) l (disc n) (isReady n) (sigStop n).
Definition set_disc (d : option discover_UDPv5) (n : networkCrawler) :=
  mkCrawler (cfg n) (db n) (node n) d (isReady n) (sigStop n).
Definition set_isReady (b : bool) (n : networkCrawler) :=
  mkCrawler (cfg n) (db n) (node n) (disc n) b (sigStop n).
Definition set_sigStop (c : option chan) (n : networkCrawler) :=
  mkCrawler (cfg n) (db n) (node n) (disc n) (isReady n) c.

(** Run a computation on the configuration behind the pointer [nec.cfg]. *)
Definition onCfg {A} (m : M Config A) : M world A :=
  (w <- get ;;
   c <- deref (cfg (nec w)) ;;
   match m c with
   | Some (a, c') => update (set_cfg (Some c')) ;;; ret a
   | None => panic
   end)%go.

(** [func (nec *networkCrawler) name() string] *)
Definition name : string := "network crawler".

(** [func (nec *networkCrawler) setPrivateKey() (err error)] *)
Definition setPrivateKey : M world (option error) :=
  match Sig_PrivateKey Cfg with
  | None =>
      let r := crypto_GenerateKey in
      (onCfg (modify (fun c => mkConfig (value r) (Bootnodes c))) ;;;
       ret (failure r))%go
  | Some k =>
      (onCfg (modify (fun c => mkConfig (Some k) (Bootnodes c))) ;;;
       ret None)%go
  end.

(** [func (nec *networkCrawler) setBootstrap() (err error)] *)
Definition setBootstrap : M world (option error) :=
  onCfg (setBootstrapOn (LocalNode_V5Bootstrap Cfg)).

(** [func (nec *networkCrawler) openNodesDatabase() error] *)
Definition openNodesDatabase : M world (option error) :=
  match enode_OpenDB (LocalNode_DbPath Cfg) with
  | Err e =>
      (log_Criticalf ("can not open node database; " +:+ e) ;;;
       ret (Some e))%go
  | Ok d => (update (set_db (Some d)) ;;; ret None)%go
  end.

(** [func (nec *networkCrawler) configure() error] *)
Definition configure : M world (option error) :=
  (update (set_cfg (Some (mkConfig None []))) ;;;
   err <- setPrivateKey ;;
   match err with
   | Some e => ret (Some e)
   | None =>
       err <- setBootstrap ;;
       match err with
       | Some e => ret (Some e)
       | None => openNodesDatabase
       end
   end)%go.

(** [func (nec *networkCrawler) init()] *)
Definition init : M world unit :=
  (update (set_sigStop (Some (mkChan 1 []))) ;;;
   err <- configure ;;
   match err with
   | Some e => log_Criticalf ("can not run local discovery; " +:+ e)
   | None => update (set_isReady true)
   end)%go.

(** [func (nec *networkCrawler) listen() error] *)
Definition listen : M world (option error) :=
  match net_ListenPacket "udp4" (LocalNode_BindAddress Cfg) with
  | Err e =>
      (log_Criticalf ("can not open p2p node socket at ["
                      +:+ LocalNode_BindAddress Cfg +:+ "]; " +:+ e) ;;;
       ret (Some e))%go
  | Ok socket =>
      let addr := Net.LocalAddr socket in
      (w <- get ;;
       ln <- deref (node (nec w)) ;;
       let ln1 := if IP_IsUnspecified (Net.addrIP addr)
                  then SetFallbackIP [127; 0; 0; 1] ln
                  else SetFallbackIP (Net.addrIP addr) ln in
       let ln2 := SetFallbackUDP (Net.addrPort addr) ln1 in
       update (set_node (Some ln2)) ;;;
       c <- deref (cfg (nec w)) ;;
       let r := discover_ListenV5 socket ln2 c in
       update (set_disc (value r)) ;;;
       match r with
       | Err e =>
           log_Criticalf ("can not start discovery protocol; " +:+ e) ;;;
           ret (Some e)
       | Ok _ => ret None
       end)%go
  end.

(** [func (nec *networkCrawler) run()]; the goroutine [go nec.crawl()] is
    recorded as started, its body is [crawl]. *)
Definition run : M world unit :=
  (w <- get ;;
   if negb (isReady (nec w)) then
     log_Criticalf "network crawler not ready and will not run"
   else
     c <- deref (cfg (nec w)) ;;
     update (set_node (Some (NewLocalNode (db (nec w)) (PrivateKey c)))) ;;;
     emit EvNewLocalNode ;;;
     err <- listen ;;
     match err with
     | Some _ => log_Criticalf "network crawler not ready and will not run"
     | None => emit (EvStarted name) ;;; emit (EvGo "crawl")
     end)%go.

(** [defer f()] around a body: [f] runs when the body returns. *)
Definition deferring {A} (f : M world unit) (body : M world A) : M world A :=
  (a <- body ;; f ;;; ret a)%go.

(** [func (nec *networkCrawler) crawl()]: the body is empty, the deferred
    function closes the discovery and signals the orchestrator. *)
Definition crawl : M world unit :=
  deferring
    (w <- get ;;
     _ <- deref (disc (nec w)) ;;
     emit EvDiscClose ;;;
     emit (EvFinished name))%go
    (ret tt).

(** [k] calls of [run], one after the other. *)
Fixpoint runs (k : nat) : M world unit :=
  match k with
  | O => ret tt
  | S k' => (run ;;; runs k')%go
  end.

End Defs.
End Svc.

(** *** The version reading [cfg.Lachesis] *)
Module Lachesis.
Section Defs.
Context `{EnodeLib} `{HostTypes} `{!HostOps}.

(** The fields of the process-wide [cfg] this version reads. *)
Record AppConfig := mkAppConfig {
  Lachesis_NodeKey : string;
  Lachesis_V5Bootstrap : list string;
}.

Variable Cfg : AppConfig.

(** [type networkCrawler struct] *)
Record networkCrawler := mkCrawler {
  cfg : option Config;
  isReady : bool;
  sigStop : option chan;
}.

Record world := mkWorld { nec : networkCrawler; trace : list event }.

Definition log_Criticalf (msg : string) : M world unit :=
  modify (fun w => mkWorld (nec w) (trace w ++ [EvCritical msg])).
Definition update (f : networkCrawler -> networkCrawler) : M world unit :=
  modify (fun w => mkWorld (f (nec w)) (trace w)).

Definition onCfg {A} (m : M Config A) : M world A :=
  (w <- get ;;
   c <- deref (cfg (nec w)) ;;
   match m c with
   | Some (a, c') =>
       update (fun n => mkCrawler (Some c') (isReady n) (sigStop n)) ;;; ret a
   | None => panic
   end)%go.

(** [func (nec *networkCrawler) setPrivateKey() (err error)] *)
Definition setPrivateKey : M world (option error) :=
  if String.eqb (Lachesis_NodeKey Cfg) "" then
    let r := crypto_GenerateKey in
    (onCfg (modify (fun c => mkConfig (value r) (Bootnodes c))) ;;;
     ret (failure r))%go
  else
    let r := crypto_HexToECDSA (Lachesis_NodeKey Cfg) in
    (onCfg (modify (fun c => mkConfig (value r) (Bootnodes c))) ;;;
     ret (failure r))%go.

(** [func (nec *networkCrawler) setBootstrap() (err error)] *)
Definition setBootstrap : M world (option error) :=
  onCfg (setBootstrapOn (Lachesis_V5Bootstrap Cfg)).

(** [func (nec *networkCrawler) configure() error]; the registry is not
    opened in this version. *)
Definition configure : M world (option error) :=
  (update (fun n => mkCrawler (Some (mkConfig None [])) (isReady n) (sigStop n)) ;;;
   err <- setPrivateKey ;;
   match err with
   | Some e => ret (Some e)
   | None =>
       err <- setBootstrap ;;
       match err with
       | Some e => ret (Some e)
       | None => ret None
       end
   end)%go.

(** [func (nec *networkCrawler) init()] *)
Definition init : M world unit :=
  (update (fun n => mkCrawler (cfg n) (isReady n) (Some (mkChan 1 []))) ;;;
   err <- configure ;;
   match err with
   | Some e => log_Criticalf ("can not run local discovery; " +:+ e)
   | None => update (fun n => mkCrawler (cfg n) true (sigStop n))
   end)%go.

(** [func (nec *networkCrawler) run()] *)
Definition run : M world unit :=
  (w <- get ;;
   if negb (isReady (nec w)) then
     log_Criticalf "network crawler not ready and will not run"
   else ret tt)%go.

End Defs.
End Lachesis.

(** ** Package [repository]: the proxy behind the resolvers *)

(** The bridges of the repository live in packages of their own
    ([cache], [db], [rpc]); the proxy reaches them through their
    constructors.  [ScanBlockChain] is the channel the scanner hands back. *)
Class RepoHost := {
  config_Config : Type;
  cache_MemBridge : Type;
  db_MongoDbBridge : Type;
  rpc_OperaBridge : Type;
  cache_New : config_Config -> result cache_MemBridge;
  db_New : config_Config -> result db_MongoDbBridge;
  rpc_New : config_Config -> result rpc_OperaBridge;
  ScanBlockChain : option chan;
}.

Module Repository.
Section Defs.
Context `{RepoHost}.

(** What [New] and [Close] do to their surroundings. *)
Inductive action :=
| CacheNew                       (* cache.New(cfg, log) *)
| DbNew                          (* db.New(cfg, log) *)
| RpcNew                         (* rpc.New(cfg, log) *)
| Criticalf (msg : string)       (* log.Criticalf *)
| Debugf (msg : string)          (* p.log.Debugf *)
| SetBalance                     (* dbBridge.SetBalance(p.AccountBalance) *)
| StartScanner                   (* p.ScanBlockChain(&p.waitGroup) *)
| SendStop (b : bool)            (* p.sigScannerStop <- b *)
| WaitGroupWait                  (* p.waitGroup.Wait() *)
| DbClose                        (* p.db.Close() *)
| RpcClose.                      (* p.rpc.Close() *)

(** [type proxy struct]; the bridges are pointers. *)
Record proxy := mkProxy {
  cache : option cache_MemBridge;
  db : option db_MongoDbBridge;
  rpc : option rpc_OperaBridge;
  sigScannerStop : option chan;
}.

Definition act (a : action) : M (list action) unit :=
  modify (fun tr => tr ++ [a]).

(** [func New(cfg *config.Config, log logger.Logger) (Repository, error)] *)
Definition New (cfg : config_Config) : M (list action) (option proxy * option error) :=
  (act CacheNew ;;;
   match cache_New cfg with
   | Err e =>
       act (Criticalf ("can not create in-memory cache bridge, " +:+ e)) ;;;
       ret (None, Some e)
   | Ok caBridge =>
       act DbNew ;;;
       match db_New cfg with
       | Err e =>
           act (Criticalf ("can not connect backend persistent storage, " +:+ e)) ;;;
           ret (None, Some e)
       | Ok dbBridge =>
           act RpcNew ;;;
           match rpc_New cfg with
           | Err e =>
               act (Criticalf ("can not connect Lachesis RPC interface, " +:+ e)) ;;;
               ret (None, Some e)
           | Ok rpcBridge =>
               act SetBalance ;;;
               act StartScanner ;;;
               ret (Some (mkProxy (Some caBridge) (Some dbBridge) (Some rpcBridge)
                                  ScanBlockChain), None)
           end
       end
   end)%go.

(** [func (p *proxy) Close()]; closing through a nil bridge panics. *)
Definition Close (p : proxy) : M (list action) unit :=
  (act (Debugf "sending terminate signal to the scanner") ;;;
   match sigScannerStop p with
   | Some _ => act (SendStop true)
   | None => ret tt
   end ;;;
   act (Debugf "waiting for repository to finish background jobs") ;;;
   act WaitGroupWait ;;;
   _ <- deref (db p) ;;
   act DbClose ;;;
   _ <- deref (rpc p) ;;
   act RpcClose)%go.

End Defs.
End Repository.

(** ** Parts the repository does not hold *)

(** The scoring rule.  The repository declares the [Score] field ("halved if
    a check fails") and holds no function that applies the rule. *)
Module Scoring.
Section Defs.
Context `{EnodeLib}.
Import Types.

(** Modelled from the spec: the failed-probe transition, absent from the
    repository's sources: [score = score / 2] (integer floor division),
    [lastCheck = now], [lastResponse] unchanged. *)
Definition probeFailed (now : Time) (nn : NetworkNode) : NetworkNode :=
  mkNetworkNode (Node nn) (Score nn / 2) (Found nn) (LastResponse nn) now.

(** One failed probe at each of the given instants, in order. *)
Fixpoint probesFailed (nows : list Time) (nn : NetworkNode) : NetworkNode :=
  match nows with
  | [] => nn
  | now :: rest => probesFailed rest (probeFailed now nn)
  end.
End Defs.
End Scoring.

(** Node addresses.  go-ethereum's [enode] package is not part of the
    repository; this instance of [EnodeLib] gives the address form concrete
    content. *)
Module NodeAddress.

(** Modelled from the spec: a node in the address form
    [scheme://<id>@<host>:<port>] of the bootstrap list; the [enode]
    package that parses it is absent from the repository's sources.  The
    id is kept as written. *)
Record Addr := mkAddr { id : string; host : string; port : Z }.

Definition showPort (p : Z) : string :=
  NilZero.string_of_uint (N.to_uint (Z.to_N p)).

Definition readPort (s : string) : option Z :=
  match NilZero.uint_of_string s with
  | Some u =>
      let p := Z.of_N (N.of_uint u) in
      if (p <=? 65535)%Z then Some p else None
  | None => None
  end.

(** The position of the last [c] in [s], counted from [i]. *)
Fixpoint lastIndex (c : ascii) (s : string) (i : nat) : option nat :=
  match s with
  | EmptyString => None
  | String a s' =>
      match lastIndex c s' (S i) with
      | Some j => Some j
      | None => if Ascii.eqb a c then Some i else None
      end
  end.

Definition dropString (n : nat) (s : string) : string :=
  String.substring n (String.length s - n) s.

(** Modelled from the spec: the canonical address string of a node. *)
Definition nodeString (a : Addr) : string :=
  "enode://" +:+ id a +:+ "@" +:+ host a +:+ ":" +:+ showPort (port a).

(** Modelled from the spec: parsing [enode://<id>@<host>:<port>]. *)
Definition ParseV4 (s : string) : result Addr :=
  if negb (HasPrefix s "enode://") then Err "invalid URL scheme, want enode"
  else
    let rest := dropString 8 s in
    match String.index 0 "@" rest with
    | None => Err "does not contain node ID"
    | Some at_ =>
        let hostport := dropString (S at_) rest in
        match lastIndex ":" hostport 0 with
        | None => Err "invalid port"
        | Some colon =>
            match readPort (dropString (S colon) hostport) with
            | None => Err "invalid port"
            | Some p =>
                Ok (mkAddr (String.substring 0 at_ rest)
                           (String.substring 0 colon hostport) p)
            end
        end
    end.

#[global] Instance lib : EnodeLib := {
  enode_Node := Addr;
  Node_String := nodeString;
  enode_ParseV4 := ParseV4;
  enode_Parse := ParseV4;
}.

End NodeAddress.

(** ** Vocabulary of the statements *)

#[export] Instance event_eq_dec : EqDecision event.
Proof. solve_decision. Defined.

(** An emitted event that is a log line. *)
Definition isLog (e : event) : bool :=
  match e with EvCritical _ => true | _ => false end.

(** In [evs] the discovery is closed before any "finished" signal. *)
Definition closedBeforeFinished (evs : list event) : Prop :=
  forall pre svc post, evs = pre ++ EvFinished svc :: post -> In EvDiscClose pre.

Section Vocabulary.
Context `{EnodeLib}.

(** [bn] holds, index by index, the nodes the [urls] parse to. *)
Definition bootnodesOf (urls : list string) (bn : list (option enode_Node)) : Prop :=
  length bn = length urls /\
  forall (i : nat) (u : string), urls !! i = Some u ->
    exists n, url2node u = Ok n /\ bn !! i = Some (Some n).

(** The slots filled before the first URL that fails to parse. *)
Fixpoint parsedUntilError (urls : list string) : list (option enode_Node) :=
  match urls with
  | [] => []
  | u :: rest =>
      match url2node u with
      | Ok n => Some n :: parsedUntilError rest
      | Err _ => []
      end
  end.

(** The error of the first URL that fails to parse. *)
Fixpoint firstError (urls : list string) : option error :=
  match urls with
  | [] => None
  | u :: rest =>
      match url2node u with
      | Ok _ => firstError rest
      | Err e => Some e
      end
  end.
End Vocabulary.

(** How the configuration of the service can fail. *)
Section SvcVocabulary.
Context `{EnodeLib} `{HostTypes} `{!HostOps}.

(** No key is configured and none can be generated. *)
Definition identityFails (Cfg : Svc.AppConfig) : Prop :=
  Svc.Sig_PrivateKey Cfg = None /\ is_ok crypto_GenerateKey = false.

(** Some bootstrap URL does not parse. *)
Definition bootstrapFails (Cfg : Svc.AppConfig) : Prop :=
  Exists (fun u => is_ok (url2node u) = false) (Svc.LocalNode_V5Bootstrap Cfg).

(** The node registry cannot be opened. *)
Definition registryFails (Cfg : Svc.AppConfig) : Prop :=
  is_ok (enode_OpenDB (Svc.LocalNode_DbPath Cfg)) = false.

(** The key [setPrivateKey] stores and the error it returns. *)
Definition identityOutcome (Cfg : Svc.AppConfig) : result ecdsa_PrivateKey :=
  match Svc.Sig_PrivateKey Cfg with
  | Some k => Ok k
  | None => crypto_GenerateKey
  end.

(** The crawler with [c] behind its [cfg] pointer. *)
Definition withCfg (c : Config) (w : Svc.world) : Svc.world :=
  Svc.mkWorld (Svc.set_cfg (Some c) (Svc.nec w)) (Svc.trace w).

(** The line [run] logs when the crawler is not ready. *)
Definition notReady : event :=
  EvCritical "network crawler not ready and will not run".
End SvcVocabulary.

(** A host on which every call succeeds; keys are numbers written in hex. *)
Module DemoHost.

#[global] Instance types : HostTypes := {
  ecdsa_PrivateKey := Z;
  enode_DB := string;
  discover_UDPv5 := Net.PacketConn;
}.

Definition hexDigit (a : ascii) : option Z :=
  let n := Z.of_nat (nat_of_ascii a) in
  if ((48 <=? n) && (n <=? 57))%Z then Some (n - 48)
  else if ((97 <=? n) && (n <=? 102))%Z then Some (n - 87)
  else None.

Fixpoint hexValue (acc : Z) (s : string) : option Z :=
  match s with
  | EmptyString => Some acc
  | String a s' =>
      match hexDigit a with
      | Some d => hexValue (16 * acc + d) s'
      | None => None
      end
  end.

#[global] Instance ops : @HostOps NodeAddress.lib types := {
  crypto_GenerateKey := Ok 42;
  crypto_HexToECDSA := fun s =>
    match hexValue 0 s with
    | Some k => Ok k
    | None => Err "invalid hex character"
    end;
  enode_OpenDB := fun path => Ok path;
  net_ListenPacket := fun _ _ => Ok (Net.mkPacketConn (Net.mkUDPAddr [0; 0; 0; 0] 5050));
  IP_IsUnspecified := fun ip => forallb (Z.eqb 0) ip;
  discover_ListenV5 := fun conn _ _ => Ok conn;
}.

(** A bootstrap list whose second entry lacks the prefix. *)
Definition badBootstrap : Svc.AppConfig :=
  Svc.mkAppConfig None
    ["enode://abc@1.2.3.4:30303"; "http://x"; "enode://def@5.6.7.8:30304"]
    "" "0.0.0.0:5050".

(** A bootstrap list that parses. *)
Definition goodBootstrap : Svc.AppConfig :=
  Svc.mkAppConfig (Some 7)
    ["enode://abc@1.2.3.4:30303"; "enode://def@5.6.7.8:30304"]
    "" "0.0.0.0:5050".

(** A crawler as allocated, and one with its configuration allocated. *)
Definition fresh : Svc.world :=
  Svc.mkWorld (Svc.mkCrawler None None None None false None) [].
Definition allocated : Svc.world :=
  Svc.mkWorld (Svc.mkCrawler (Some (mkConfig None [])) None None None false None) [].

(** A crawler whose discovery listens. *)
Definition listening : Svc.world :=
  Svc.mkWorld
    (Svc.mkCrawler (Some (mkConfig (Some 7) [])) (Some "") None
       (Some (Net.mkPacketConn (Net.mkUDPAddr [0; 0; 0; 0] 5050))) true
       (Some (mkChan 1 [])))
    [EvNewLocalNode; EvStarted "network crawler"; EvGo "crawl"].

(** The older version: no key, a hex key, a key that is not hex. *)
Definition noKey : Lachesis.AppConfig := Lachesis.mkAppConfig "" [].
Definition hexKey : Lachesis.AppConfig :=
  Lachesis.mkAppConfig "2a"
    ["enode://abc@1.2.3.4:30303"; "enode://def@5.6.7.8:30304"].
Definition badKey : Lachesis.AppConfig := Lachesis.mkAppConfig "xyz" [].
Definition allocated0 : Lachesis.world :=
  Lachesis.mkWorld (Lachesis.mkCrawler (Some (mkConfig None [])) false None) [].
End DemoHost.

(** A host on which no key can be generated, the registry does not open
    and no socket can be bound. *)
Module FaultyHost.

Definition ops : @HostOps NodeAddress.lib DemoHost.types := {|
  crypto_GenerateKey := Err "entropy source failed";
  crypto_HexToECDSA := fun _ => Err "invalid hex character";
  enode_OpenDB := fun _ => Err "resource temporarily unavailable";
  net_ListenPacket := fun _ _ => Err "address already in use";
  IP_IsUnspecified := fun ip => forallb (Z.eqb 0) ip;
  discover_ListenV5 := fun _ _ _ => Err "socket closed";
|}.


(** A ready crawler that has not run yet. *)
Definition ready : Svc.world :=
  Svc.mkWorld
    (Svc.mkCrawler (Some (mkConfig (Some 7) [])) (Some "") None None true
       (Some (mkChan 1 []))) [].
End FaultyHost.

(** Bridges that connect, and bridges whose RPC side does not. *)
Module DemoRepo.

#[global] Instance host : RepoHost := {
  config_Config := unit;
  cache_MemBridge := string;
  db_MongoDbBridge := string;
  rpc_OperaBridge := string;
  cache_New := fun _ => Ok "cache";
  db_New := fun _ => Ok "mongo";
  rpc_New := fun _ => Ok "opera";
  ScanBlockChain := Some (mkChan 0 []);
}.

Definition noRpc : RepoHost := {|
  config_Config := unit;
  cache_MemBridge := string;
  db_MongoDbBridge := string;
  rpc_OperaBridge := string;
  cache_New := fun _ => Ok "cache";
  db_New := fun _ => Ok "mongo";
  rpc_New := fun _ => Err "connection refused";
  ScanBlockChain := Some (mkChan 0 []);
|}.
End DemoRepo.

(** * Properties *)

(** ** The monad *)
Section MonadFacts.
Context {S : Type}.

Lemma bind_ret {A B} (a : A) (k : A -> M S B) (s : S) :
  bind (ret a) k s = k a s.
Proof. reflexivity. Qed.

Lemma bind_some {A B} (m : M S A) (k : A -> M S B) (s s' : S) (a : A) :
  m s = Some (a, s') -> bind m k s = k a s'.
Proof. intros Hm. unfold bind. now rewrite Hm. Qed.

Lemma bind_none {A B} (m : M S A) (k : A -> M S B) (s : S) :
  m s = None -> bind m k s = None.
Proof. intros Hm. unfold bind. now rewrite Hm. Qed.

Lemma bind_inv {A B} (m : M S A) (k : A -> M S B) (s s2 : S) (b : B) :
  bind m k s = Some (b, s2) ->
  exists a s1, m s = Some (a, s1) /\ k a s1 = Some (b, s2).
Proof.
  unfold bind. destruct (m s) as [[a s1]|] eqn:Hm; [|discriminate].
  intros Hk. now exists a, s1.
Qed.
End MonadFacts.

(** ** Scoring *)
Section ScoringFacts.
Context `{EnodeLib}.
Import Types Scoring.

Lemma probesFailed_app (xs ys : list Time) (nn : NetworkNode) :
  probesFailed (xs ++ ys) nn = probesFailed ys (probesFailed xs nn).
Proof. revert nn. induction xs as [|x xs IH]; intros nn; simpl; auto. Qed.

Lemma probesFailed_LastResponse (nows : list Time) (nn : NetworkNode) :
  LastResponse (probesFailed nows nn) = LastResponse nn.
Proof. revert nn. induction nows as [|t ts IH]; intros nn; simpl; [|rewrite IH]; auto. Qed.

Lemma probesFailed_Score (nows : list Time) (nn : NetworkNode) :
  Score (probesFailed nows nn) = Score nn / 2 ^ Z.of_nat (length nows).
Proof.
  revert nn. induction nows as [|t ts IH]; intros nn.
  - simpl. now rewrite Z.div_1_r.
  - cbn [probesFailed length]. rewrite IH. cbn [probeFailed Score].
    rewrite Nat2Z.inj_succ, Z.pow_succ_r by lia.
    rewrite Z.div_div by lia. reflexivity.
Qed.

(** On a non-negative score the floor division of the rule is Go's
    truncating [/] on [int]. *)
Lemma halving_is_quot (s : Z) : 0 <= s -> s / 2 = Z.quot s 2.
Proof. intros Hs. symmetry. apply Z.quot_div_nonneg; lia. Qed.

(** C1: starting from a score [s0 >= 0], [n] consecutive failed probes leave
    the score at [floor (s0 / 2^n)], which is never negative, and they do
    not touch [lastResponse]. *)
Theorem failed_probes_halve_score (nn : NetworkNode) (n : nat) (nows : list Time) :
  0 <= Score nn ->
  length nows = n ->
  Score (probesFailed nows nn) = Score nn / 2 ^ Z.of_nat n
  /\ 0 <= Score (probesFailed nows nn)
  /\ LastResponse (probesFailed nows nn) = LastResponse nn.
Proof.
  intros Hs Hn. subst n. rewrite probesFailed_Score, probesFailed_LastResponse.
  repeat split. apply Z.div_pos; [assumption|]. apply Z.pow_pos_nonneg; lia.
Qed.
End ScoringFacts.

Lemma failed_probes_halve_score_witness :
  let nn := Types.mkNetworkNode (Some (NodeAddress.mkAddr "abc" "1.2.3.4" 30303)) 13 5 6 7 in
  Types.Score (Scoring.probesFailed [8; 9; 10] nn) = 13 / 2 ^ Z.of_nat 3
  /\ 0 <= Types.Score (Scoring.probesFailed [8; 9; 10] nn)
  /\ Types.LastResponse (Scoring.probesFailed [8; 9; 10] nn) = 6.
Proof.
  intros nn.
  apply (failed_probes_halve_score nn 3 [8; 9; 10]); [simpl; lia | reflexivity].
Defined.

(** ** List page information *)
Section PageInfoFacts.
Import Resolvers.
Context {Cursor : Type}.

(** C10: [NewListPageInfo] returns an error exactly when [first] or [last]
    is nil; with both cursors present it returns, without error, the page
    information holding the four arguments. *)
Theorem NewListPageInfo_spec (first last : option Cursor) (hasNext hasPrevious : bool) :
  (snd (NewListPageInfo Cursor first last hasNext hasPrevious) <> None
     <-> first = None \/ last = None)
  /\ (first <> None /\ last <> None ->
      exists info,
        NewListPageInfo Cursor first last hasNext hasPrevious = (Some info, None)
        /\ First info = first /\ Last info = last
        /\ HasNext info = hasNext /\ HasPrevious info = hasPrevious)
  /\ (first = None \/ last = None ->
      fst (NewListPageInfo Cursor first last hasNext hasPrevious) = None).
Proof.
  unfold NewListPageInfo.
  destruct first as [f|], last as [l|]; simpl; repeat split;
    try (intros; discriminate); try tauto;
    try (intros [? | ?]; discriminate);
    try (intros [? ?]; congruence).
  - intros _. eexists. repeat split.
Qed.
End PageInfoFacts.

Lemma NewListPageInfo_spec_witness :
  exists info,
    Resolvers.NewListPageInfo string (Some "a") (Some "z") true false = (Some info, None)
    /\ Resolvers.First info = Some "a" /\ Resolvers.Last info = Some "z"
    /\ Resolvers.HasNext info = true /\ Resolvers.HasPrevious info = false.
Proof.
  apply (NewListPageInfo_spec (Some "a") (Some "z") true false).
  split; discriminate.
Defined.

(** ** The stored form of a node record *)
Section TypesFacts.
Context `{EnodeLib}.
Import Types.

(** Decoding what [bson.Marshal] wrote gives the struct back with its
    timestamps in whole milliseconds: the tags of [pom] and of [row] agree. *)
Lemma bson_Unmarshal_Marshal (r : row) :
  exists d, bson_Marshal r = Ok d
            /\ bson_Unmarshal d =
                 Ok (mkRow (rScheme r) (rURL r) (rScore r) (millis (rFound r))
                           (millis (rResponded r)) (millis (rChecked r))).
Proof. eexists. split; [reflexivity|]. destruct r. reflexivity. Qed.

Lemma millis_whole (t : Time) : t mod 1000000 = 0 -> millis t = t.
Proof.
  intros Hm. unfold millis.
  pose proof (Z.div_mod t 1000000 ltac:(lia)) as Hd. lia.
Qed.

Lemma millis_bounds (t : Time) : millis t <= t < millis t + 1000000.
Proof.
  unfold millis.
  pose proof (Z.div_mod t 1000000 ltac:(lia)) as Hd.
  pose proof (Z.mod_pos_bound t 1000000 ltac:(lia)) as Hb. lia.
Qed.

Lemma millis_idempotent (t : Time) : millis (millis t) = millis t.
Proof. unfold millis. now rewrite Z.div_mul by lia. Qed.

Lemma MarshalBSON_run (nn : NetworkNode) (n : enode_Node) :
  Node nn = Some n ->
  MarshalBSON nn =
    Some (bson_Marshal (mkRow "v4" (Node_String n) (Score nn) (Found nn)
                              (LastResponse nn) (LastCheck nn)), nn).
Proof. intros Hn. unfold MarshalBSON, bind, get. rewrite Hn. reflexivity. Qed.

(** A nil node makes [MarshalBSON] panic. *)
Lemma MarshalBSON_nil (nn : NetworkNode) :
  Node nn = None -> MarshalBSON nn = None.
Proof. intros Hn. unfold MarshalBSON, bind, get. rewrite Hn. reflexivity. Qed.

(** A document the driver cannot decode into the struct leaves the
    receiver as it was. *)
Lemma UnmarshalBSON_undecodable (data : document) (e : error) (nn : NetworkNode) :
  bson_Unmarshal data = Err e -> UnmarshalBSON data nn = Some (Some e, nn).
Proof. intros Hd. unfold UnmarshalBSON. rewrite Hd. reflexivity. Qed.

Lemma UnmarshalBSON_ok (data : document) (r : row) (n : enode_Node) (nn : NetworkNode) :
  bson_Unmarshal data = Ok r ->
  enode_Parse (rURL r) = Ok n ->
  UnmarshalBSON data nn =
    Some (None, mkNetworkNode (Some n) (rScore r) (rFound r) (rResponded r) (rChecked r)).
Proof.
  intros Hd Hp. unfold UnmarshalBSON. rewrite Hd, Hp. reflexivity.
Qed.

(** C5: when the [url] of a stored document does not parse as a node
    address, [UnmarshalBSON] returns the parser's error and the receiver keeps
    its [Score], [Found], [LastResponse] and [LastCheck]; only [Node],
    assigned from the failed parse, is nil. *)
Theorem UnmarshalBSON_bad_url (data : document) (r : row) (e : error) (nn : NetworkNode) :
  bson_Unmarshal data = Ok r ->
  enode_Parse (rURL r) = Err e ->
  exists nn',
    UnmarshalBSON data nn = Some (Some e, nn')
    /\ Node nn' = None
    /\ Score nn' = Score nn /\ Found nn' = Found nn
    /\ LastResponse nn' = LastResponse nn /\ LastCheck nn' = LastCheck nn.
Proof.
  intros Hd Hp. unfold UnmarshalBSON. rewrite Hd, Hp.
  eexists. split; [reflexivity|]. cbn. repeat split.
Qed.


(** C9: for a record whose node is the one its address string parses to,
    unmarshaling the output of [MarshalBSON] into any receiver yields the
    same node and [Score], and [Found], [LastResponse] and [LastCheck] cut
    to the whole millisecond; a record whose timestamps are whole
    milliseconds comes back as it was. *)
Theorem Unmarshal_Marshal_roundtrip_millis (nn nn0 : NetworkNode) (n : enode_Node) :
  Node nn = Some n ->
  enode_Parse (Node_String n) = Ok n ->
  exists d nn',
    MarshalBSON nn = Some (Ok d, nn)
    /\ UnmarshalBSON d nn0 = Some (None, nn')
    /\ Node nn' = Some n
    /\ Score nn' = Score nn
    /\ Found nn' = millis (Found nn)
    /\ LastResponse nn' = millis (LastResponse nn)
    /\ LastCheck nn' = millis (LastCheck nn)
    /\ (Found nn mod 1000000 = 0 -> LastResponse nn mod 1000000 = 0 ->
        LastCheck nn mod 1000000 = 0 -> nn' = nn).
Proof.
  intros Hn Hp. rewrite (MarshalBSON_run nn n Hn).
  destruct (bson_Unmarshal_Marshal
              (mkRow "v4" (Node_String n) (Score nn) (Found nn)
                     (LastResponse nn) (LastCheck nn))) as (d & Hm & Hu).
  rewrite Hm. exists d. eexists. split; [reflexivity|].
  split; [apply (UnmarshalBSON_ok d _ n nn0 Hu); exact Hp|].
  cbn. repeat split.
  intros Hf Hr Hc. rewrite !millis_whole by assumption.
  destruct nn; cbn in *. now subst.
Qed.
End TypesFacts.

Lemma UnmarshalBSON_bad_url_witness :
  let data := [("url", Types.BString "http://x"); ("score", Types.BInt 9)] in
  let nn := Types.mkNetworkNode (Some (NodeAddress.mkAddr "abc" "1.2.3.4" 30303)) 4 5 6 7 in
  exists nn',
    Types.UnmarshalBSON data nn = Some (Some "invalid URL scheme, want enode", nn')
    /\ Types.Node nn' = None
    /\ Types.Score nn' = 4 /\ Types.Found nn' = 5
    /\ Types.LastResponse nn' = 6 /\ Types.LastCheck nn' = 7.
Proof.
  intros data nn.
  apply (UnmarshalBSON_bad_url data (Types.mkRow "" "http://x" 9 0 0 0)
           "invalid URL scheme, want enode" nn); reflexivity.
Defined.


Lemma Unmarshal_Marshal_roundtrip_millis_witness :
  let a := NodeAddress.mkAddr "abc" "1.2.3.4" 30303 in
  let nn := Types.mkNetworkNode (Some a) 4 5000000 6000000 7500001 in
  let nn0 := Types.mkNetworkNode None 0 0 0 0 in
  exists d nn',
    Types.MarshalBSON nn = Some (Ok d, nn)
    /\ Types.UnmarshalBSON d nn0 = Some (None, nn')
    /\ Types.Node nn' = Some a
    /\ Types.Score nn' = 4
    /\ Types.Found nn' = Types.millis 5000000
    /\ Types.LastResponse nn' = Types.millis 6000000
    /\ Types.LastCheck nn' = Types.millis 7500001
    /\ (5000000 mod 1000000 = 0 -> 6000000 mod 1000000 = 0 ->
        7500001 mod 1000000 = 0 -> nn' = nn).
Proof.
  intros a nn nn0. apply (Unmarshal_Marshal_roundtrip_millis nn nn0 a); reflexivity.
Defined.

(** A record stamped within a millisecond does not come back equal: its
    [Found] of 1234567 ns reads back as 1000000 ns. *)
Lemma Unmarshal_Marshal_loses_submillisecond :
  let a := NodeAddress.mkAddr "abc" "1.2.3.4" 30303 in
  let nn := Types.mkNetworkNode (Some a) 4 1234567 0 0 in
  let nn0 := Types.mkNetworkNode None 0 0 0 0 in
  Types.Node nn = Some a
  /\ enode_Parse (Node_String a) = Ok a
  /\ exists d nn',
       Types.MarshalBSON nn = Some (Ok d, nn)
       /\ Types.UnmarshalBSON d nn0 = Some (None, nn')
       /\ Types.Found nn' = 1000000
       /\ Types.Found nn' <> Types.Found nn
       /\ nn' <> nn.
Proof.
  intros a nn nn0. split; [reflexivity|]. split; [reflexivity|].
  exists [("scheme", Types.BString "v4");
          ("url", Types.BString "enode://abc@1.2.3.4:30303");
          ("score", Types.BInt 4); ("found", Types.BDateTime 1234567);
          ("valid", Types.BDateTime 0); ("check", Types.BDateTime 0)].
  exists (@Types.mkNetworkNode NodeAddress.lib (Some a) 4 1000000 0 0).
  split; [reflexivity|]. split; [reflexivity|].
  split; [reflexivity|]. split; discriminate.
Defined.

(** A key written with a capital is matched in lower case, and a datetime
    is read back in whole milliseconds. *)
Example decode_lower_case_key :
  @Types.bson_Unmarshal
    [("url", Types.BString "enode://abc@1.2.3.4:30303");
     ("Score", Types.BInt 9); ("found", Types.BDateTime 2999999)]
  = Ok (Types.mkRow "" "enode://abc@1.2.3.4:30303" 9 2000000 0 0).
Proof. reflexivity. Qed.

(** ** Bootstrap resolution *)
Section BootstrapFacts.
Context `{EnodeLib} `{HostTypes}.

Lemma url2node_no_prefix (url : string) :
  HasPrefix url "enode://" = false ->
  url2node url = Err ("invalid enode url [" +:+ url +:+ "]").
Proof. intros Hp. unfold url2node. now rewrite Hp. Qed.

Lemma url2node_prefix (url : string) :
  HasPrefix url "enode://" = true -> url2node url = enode_ParseV4 url.
Proof. intros Hp. unfold url2node. now rewrite Hp. Qed.

Lemma parsedUntilError_length (urls : list string) :
  (length (parsedUntilError urls) <= length urls)%nat.
Proof.
  induction urls as [|u urls IH]; simpl; [lia|].
  destruct (url2node u); simpl; lia.
Qed.

(** The loop, started at the first free slot, fills the slots of the URLs
    that parse, stops at the first one that does not, and never indexes out
    of range. *)
Lemma bootstrapLoop_run (urls : list string) :
  forall (pre : list (option enode_Node)) (k : option ecdsa_PrivateKey),
    bootstrapLoop (length pre) urls
      (mkConfig k (pre ++ replicate (length urls) None)) =
    Some (firstError urls,
          mkConfig k (pre ++ parsedUntilError urls
                      ++ replicate (length urls - length (parsedUntilError urls)) None)).
Proof.
  induction urls as [|u urls IH]; intros pre k.
  - reflexivity.
  - cbn [bootstrapLoop length replicate parsedUntilError firstError].
    unfold bind at 1, assignBootnode. cbn [Bootnodes PrivateKey].
    assert (Hlt : (length pre <? length (pre ++ None :: replicate (length urls) None))%nat = true).
    { apply Nat.ltb_lt. rewrite length_app. simpl. lia. }
    rewrite Hlt.
    assert (Hins : forall x : option enode_Node,
               <[length pre := x]> (pre ++ None :: replicate (length urls) None)
               = pre ++ x :: replicate (length urls) None).
    { intros x. rewrite insert_app_r_alt by lia.
      now replace (length pre - length pre)%nat with 0%nat by lia. }
    rewrite Hins.
    destruct (url2node u) as [n|e]; cbn [value].
    + specialize (IH (pre ++ [Some n]) k).
      rewrite length_app in IH. cbn [length] in IH.
      replace (length pre + 1)%nat with (S (length pre)) in IH by lia.
      rewrite <- app_assoc in IH. cbn [app] in IH. rewrite IH.
      rewrite <- app_assoc. reflexivity.
    + cbn [length app]. rewrite Nat.sub_0_r. reflexivity.
Qed.

Lemma setBootstrapOn_run (urls : list string) (c : Config) :
  setBootstrapOn urls c =
    Some (firstError urls,
          mkConfig (PrivateKey c)
            (parsedUntilError urls
             ++ replicate (length urls - length (parsedUntilError urls)) None)).
Proof.
  unfold setBootstrapOn, bind, modify.
  exact (bootstrapLoop_run urls [] (PrivateKey c)).
Qed.

Lemma all_parse (urls : list string) (nodes : list enode_Node) :
  Forall2 (fun u n => url2node u = Ok n) urls nodes ->
  parsedUntilError urls = map Some nodes /\ firstError urls = None.
Proof.
  induction 1 as [|u n urls nodes Hu _ [IHp IHe]]; [now split|].
  simpl. rewrite Hu, IHp, IHe. now split.
Qed.

Lemma parse_then_fail (pre post : list string) (nodes : list enode_Node)
      (u : string) (e : error) :
  Forall2 (fun u n => url2node u = Ok n) pre nodes ->
  url2node u = Err e ->
  parsedUntilError (pre ++ u :: post) = map Some nodes
  /\ firstError (pre ++ u :: post) = Some e.
Proof.
  intros Hpre Hu.
  induction Hpre as [|v n pre nodes Hv _ [IHp IHe]]; simpl.
  - now rewrite Hu.
  - now rewrite Hv, IHp, IHe.
Qed.

(** A URL without the prefix makes the resolution fail, wherever it
    stands. *)
Lemma firstError_no_prefix (urls : list string) :
  Exists (fun u => HasPrefix u "enode://" = false) urls ->
  exists e, firstError urls = Some e.
Proof.
  induction 1 as [u urls Hu | u urls _ [e IH]]; simpl.
  - rewrite (url2node_no_prefix u Hu). eauto.
  - destruct (url2node u); eauto.
Qed.

Lemma firstError_some_iff (urls : list string) :
  (exists e, firstError urls = Some e)
  <-> Exists (fun u => is_ok (url2node u) = false) urls.
Proof.
  induction urls as [|u urls IH]; simpl.
  - split; [intros [e He]; discriminate | intros Hx; inversion Hx].
  - destruct (url2node u) as [n|e] eqn:Hu.
    + rewrite IH. split; [intros Hx; now right|].
      intros Hx. inversion Hx as [? ? Hh|]; subst; [|assumption].
      rewrite Hu in Hh. discriminate.
    + split; [|eauto]. intros _. left. now rewrite Hu.
Qed.

Lemma bootnodesOf_map (urls : list string) (nodes : list enode_Node) :
  Forall2 (fun u n => url2node u = Ok n) urls nodes ->
  bootnodesOf urls (map Some nodes).
Proof.
  intros Hall. split.
  - rewrite length_map. symmetry. exact (Forall2_length _ _ _ Hall).
  - intros i u Hi.
    destruct (Forall2_lookup_l _ _ _ _ _ Hall Hi) as (n & Hn & Hun).
    exists n. split; [exact Hun|].
    rewrite list_lookup_fmap, Hn. reflexivity.
Qed.
End BootstrapFacts.

(** ** The crawler service *)
Section SvcFacts.
Context `{EnodeLib} `{HostTypes} `{!HostOps}.
Import Svc.
Variable Cfg : AppConfig.

Lemma onCfg_run {A} (m : M Config A) (w : world) (c c' : Config) (a : A) :
  cfg (nec w) = Some c ->
  m c = Some (a, c') ->
  onCfg m w = Some (a, withCfg c' w).
Proof.
  intros Hc Hm. unfold onCfg, bind, get. rewrite Hc. cbn. rewrite Hm.
  reflexivity.
Qed.

Lemma setPrivateKey_run (w : world) (c : Config) :
  cfg (nec w) = Some c ->
  setPrivateKey Cfg w =
    Some (failure (identityOutcome Cfg),
          withCfg (mkConfig (value (identityOutcome Cfg)) (Bootnodes c)) w).
Proof.
  intros Hc. unfold setPrivateKey, identityOutcome.
  destruct (Sig_PrivateKey Cfg) as [k|];
    unfold bind; erewrite onCfg_run by (eassumption || reflexivity);
    reflexivity.
Qed.

Lemma setBootstrap_run (w : world) (c : Config) :
  cfg (nec w) = Some c ->
  setBootstrap Cfg w =
    Some (firstError (LocalNode_V5Bootstrap Cfg),
          withCfg (mkConfig (PrivateKey c)
                     (parsedUntilError (LocalNode_V5Bootstrap Cfg)
                      ++ replicate (length (LocalNode_V5Bootstrap Cfg)
                                    - length (parsedUntilError (LocalNode_V5Bootstrap Cfg)))
                                   None)) w).
Proof.
  intros Hc. unfold setBootstrap.
  apply (onCfg_run _ w c); [exact Hc | apply setBootstrapOn_run].
Qed.

(** [configure] always returns; it leaves [isReady], [node] and [disc]
    alone and emits nothing but log lines. *)
Lemma configure_run (w : world) :
  exists r w',
    configure Cfg w = Some (r, w')
    /\ isReady (nec w') = isReady (nec w)
    /\ node (nec w') = node (nec w)
    /\ disc (nec w') = disc (nec w)
    /\ (exists logs, trace w' = trace w ++ logs /\ forallb isLog logs = true)
    /\ (r = None <-> ~ (identityFails Cfg \/ bootstrapFails Cfg \/ registryFails Cfg)).
Proof.
  unfold configure. unfold bind at 1. unfold update at 1, modify.
  set (w0 := mkWorld _ _).
  assert (Hc0 : cfg (nec w0) = Some (mkConfig None [])) by reflexivity.
  unfold bind at 1. rewrite (setPrivateKey_run w0 _ Hc0).
  unfold identityFails, bootstrapFails, registryFails, identityOutcome.
  destruct (Sig_PrivateKey Cfg) as [k|] eqn:Hk;
    [|destruct crypto_GenerateKey as [k|e] eqn:Hg]; cbn [failure value].
  3: { do 2 eexists. split; [reflexivity|]. cbn.
       repeat split; try discriminate.
       - exists []. now rewrite app_nil_r.
       - intros Hno. exfalso. apply Hno. left. now split. }
  all: set (w1 := withCfg _ w0);
    assert (Hc1 : cfg (nec w1) = Some (mkConfig (Some k) [])) by reflexivity;
    unfold bind at 1; rewrite (setBootstrap_run w1 _ Hc1);
    pose proof (firstError_some_iff (LocalNode_V5Bootstrap Cfg)) as Hfe;
    destruct (firstError (LocalNode_V5Bootstrap Cfg)) as [e|] eqn:He.
  1, 3: do 2 eexists; (split; [reflexivity|]); cbn;
    repeat split; try discriminate;
    [ exists []; now rewrite app_nil_r
    | intros Hno; exfalso; apply Hno; right; left; apply Hfe; eauto ].
  all: unfold openNodesDatabase;
    destruct (enode_OpenDB (LocalNode_DbPath Cfg)) as [d|e] eqn:Hdb;
    do 2 eexists; (split; [reflexivity|]); cbn;
    repeat split; try discriminate; try reflexivity.
  all: try (exists []; now rewrite app_nil_r).
  all: try (eexists; split; [reflexivity|reflexivity]).
  all: try (intros Hno; exfalso; apply Hno; right; right; reflexivity).
  all: intros _ [[Hx Hy] | [Hx | Hx]]; try discriminate;
    apply Hfe in Hx; destruct Hx as [e' He']; discriminate.
Qed.

Lemma init_run (w : world) :
  exists w1 logs,
    init Cfg w = Some (tt, w1)
    /\ node (nec w1) = node (nec w)
    /\ disc (nec w1) = disc (nec w)
    /\ trace w1 = trace w ++ logs /\ forallb isLog logs = true
    /\ (identityFails Cfg \/ bootstrapFails Cfg \/ registryFails Cfg ->
        isReady (nec w1) = isReady (nec w))
    /\ (~ (identityFails Cfg \/ bootstrapFails Cfg \/ registryFails Cfg) ->
        isReady (nec w1) = true).
Proof.
  unfold init. unfold bind at 1. unfold update at 1, modify.
  set (w0 := mkWorld _ _).
  destruct (configure_run w0) as (r & w' & Hrun & Hready & Hnode & Hdisc & Hlog & Hr).
  destruct Hlog as (logs & Htr & Hlogs).
  unfold bind. rewrite Hrun. destruct r as [e|].
  - exists (mkWorld (nec w') (trace w' ++ [EvCritical ("can not run local discovery; " +:+ e)])).
    exists (logs ++ [EvCritical ("can not run local discovery; " +:+ e)]).
    split; [reflexivity|]. cbn [nec trace].
    split; [now rewrite Hnode|]. split; [now rewrite Hdisc|].
    split; [rewrite Htr; now rewrite app_assoc|].
    split; [now rewrite forallb_app, Hlogs|].
    split; [intros _; now rewrite Hready|].
    intros Hno. apply Hr in Hno. discriminate.
  - exists (mkWorld (set_isReady true (nec w')) (trace w')), logs.
    split; [reflexivity|]. cbn [nec trace set_isReady node disc isReady].
    split; [now rewrite Hnode|]. split; [now rewrite Hdisc|].
    split; [exact Htr|]. split; [exact Hlogs|].
    split; [|reflexivity].
    intros Hf. exfalso. destruct Hr as [Hr _]. now apply Hr.
Qed.

Lemma run_not_ready (w : world) :
  isReady (nec w) = false ->
  run Cfg w = Some (tt, mkWorld (nec w) (trace w ++ [notReady])).
Proof. intros Hr. unfold run, bind, get. rewrite Hr. reflexivity. Qed.

Lemma runs_not_ready (k : nat) :
  forall w : world,
    isReady (nec w) = false ->
    runs Cfg k w = Some (tt, mkWorld (nec w) (trace w ++ replicate k notReady)).
Proof.
  induction k as [|k IH]; intros w Hr.
  - cbn. rewrite app_nil_r. now destruct w.
  - cbn [runs]. unfold bind. rewrite (run_not_ready w Hr).
    rewrite IH by exact Hr. cbn [nec trace].
    rewrite <- app_assoc. reflexivity.
Qed.

(** What [run] does on a ready crawler whose socket and discovery start. *)
Lemma run_ready (w : world) (c : Config) (socket : Net.PacketConn)
      (d : discover_UDPv5) :
  isReady (nec w) = true ->
  cfg (nec w) = Some c ->
  net_ListenPacket "udp4" (LocalNode_BindAddress Cfg) = Ok socket ->
  (forall ln, discover_ListenV5 socket ln c = Ok d) ->
  exists w',
    run Cfg w = Some (tt, w')
    /\ disc (nec w') = Some d
    /\ trace w' = trace w ++ [EvNewLocalNode; EvStarted name; EvGo "crawl"].
Proof.
  intros Hr Hc Hs Hd. unfold run, bind, get. rewrite Hr, Hc. cbn.
  unfold listen. rewrite Hs. unfold bind, get. cbn. rewrite Hc. cbn.
  rewrite Hd. cbn. eexists. split; [reflexivity|]. cbn.
  split; [reflexivity|]. now rewrite <- !app_assoc.
Qed.

(** [run] starts the crawl goroutine only with the discovery in place. *)
Lemma run_go_has_disc (w w' : world) :
  run Cfg w = Some (tt, w') ->
  (exists evs, trace w' = trace w ++ evs /\ In (EvGo "crawl") evs) ->
  exists d, disc (nec w') = Some d.
Proof.
  unfold run, bind, get.
  destruct (isReady (nec w)); cbn.
  2: { intros Hrun (evs & Htr & Hin). injection Hrun as <-. cbn in Htr.
       apply app_inv_head in Htr. subst evs.
       destruct Hin as [Hx|[]]. discriminate. }
  destruct (cfg (nec w)) as [c|] eqn:Hc; cbn; [|discriminate].
  unfold listen.
  destruct (net_ListenPacket "udp4" (LocalNode_BindAddress Cfg)) as [socket|e]; cbn.
  2: { intros Hrun (evs & Htr & Hin). injection Hrun as <-. cbn in Htr.
       rewrite <- !app_assoc in Htr. apply app_inv_head in Htr. subst evs.
       cbn in Hin. intuition discriminate. }
  unfold bind, get. cbn. rewrite Hc. cbn.
  match goal with |- context [discover_ListenV5 ?a ?b ?c] =>
    destruct (discover_ListenV5 a b c) as [d|e] end; cbn.
  - intros Hrun _. injection Hrun as <-. cbn. eauto.
  - intros Hrun (evs & Htr & Hin). injection Hrun as <-. cbn in Htr.
    rewrite <- !app_assoc in Htr. apply app_inv_head in Htr. subst evs.
    cbn in Hin. intuition discriminate.
Qed.

Lemma crawl_run (w : world) (d : discover_UDPv5) :
  disc (nec w) = Some d ->
  crawl w = Some (tt, mkWorld (nec w) (trace w ++ [EvDiscClose; EvFinished name])).
Proof.
  intros Hd. unfold crawl, deferring, bind, get. cbn. rewrite Hd. cbn.
  now rewrite <- app_assoc.
Qed.

(** On a nil discovery the deferred [Close] panics. *)
Lemma crawl_nil (w : world) : disc (nec w) = None -> crawl w = None.
Proof. intros Hd. unfold crawl, deferring, bind, get. cbn. now rewrite Hd. Qed.
End SvcFacts.

(** The same steps in the version reading [cfg.Lachesis]. *)
Section LachesisFacts.
Context `{EnodeLib} `{HostTypes} `{!HostOps}.
Import Lachesis.
Variable Cfg : AppConfig.

Lemma Lachesis_onCfg_run {A} (m : M Config A) (w : world) (c c' : Config) (a : A) :
  cfg (nec w) = Some c ->
  m c = Some (a, c') ->
  onCfg m w =
    Some (a, mkWorld (mkCrawler (Some c') (isReady (nec w)) (sigStop (nec w))) (trace w)).
Proof.
  intros Hc Hm. unfold onCfg, bind, get. rewrite Hc. cbn. rewrite Hm.
  reflexivity.
Qed.

Lemma Lachesis_setPrivateKey_run (w : world) (c : Config) :
  cfg (nec w) = Some c ->
  let r := if String.eqb (Lachesis_NodeKey Cfg) ""
           then crypto_GenerateKey
           else crypto_HexToECDSA (Lachesis_NodeKey Cfg) in
  setPrivateKey Cfg w =
    Some (failure r,
          mkWorld (mkCrawler (Some (mkConfig (value r) (Bootnodes c)))
                             (isReady (nec w)) (sigStop (nec w))) (trace w)).
Proof.
  intros Hc. unfold setPrivateKey.
  destruct (String.eqb (Lachesis_NodeKey Cfg) ""); cbn zeta;
    unfold bind; erewrite Lachesis_onCfg_run by (eassumption || reflexivity);
    reflexivity.
Qed.

Lemma Lachesis_setBootstrap_run (w : world) (c : Config) :
  cfg (nec w) = Some c ->
  setBootstrap Cfg w =
    Some (firstError (Lachesis_V5Bootstrap Cfg),
          mkWorld (mkCrawler
                     (Some (mkConfig (PrivateKey c)
                              (parsedUntilError (Lachesis_V5Bootstrap Cfg)
                               ++ replicate (length (Lachesis_V5Bootstrap Cfg)
                                             - length (parsedUntilError (Lachesis_V5Bootstrap Cfg)))
                                            None)))
                     (isReady (nec w)) (sigStop (nec w))) (trace w)).
Proof.
  intros Hc. unfold setBootstrap.
  apply (Lachesis_onCfg_run _ w c); [exact Hc | apply setBootstrapOn_run].
Qed.

(** A key that does not parse fails [configure], and [init] then leaves
    [isReady] as it was. *)
Lemma Lachesis_bad_key (w : world) (e : error) :
  Lachesis_NodeKey Cfg <> "" ->
  crypto_HexToECDSA (Lachesis_NodeKey Cfg) = Err e ->
  (exists w', configure Cfg w = Some (Some e, w'))
  /\ (exists w1, init Cfg w = Some (tt, w1) /\ isReady (nec w1) = isReady (nec w)).
Proof.
  intros Hkey Hparse. apply String.eqb_neq in Hkey.
  assert (Hconf : forall w0, exists w', configure Cfg w0 = Some (Some e, w')
                                        /\ isReady (nec w') = isReady (nec w0)).
  { intros w0. unfold configure. unfold bind at 1. unfold update at 1, modify.
    set (w1 := mkWorld _ _).
    assert (Hc : cfg (nec w1) = Some (mkConfig None [])) by reflexivity.
    unfold bind. rewrite (Lachesis_setPrivateKey_run w1 _ Hc).
    rewrite Hkey, Hparse. cbn. eexists. split; reflexivity. }
  split.
  - destruct (Hconf w) as (w' & Hw' & _). eauto.
  - unfold init. unfold bind at 1. unfold update at 1, modify.
    set (w0 := mkWorld _ _).
    destruct (Hconf w0) as (w' & Hw' & Hready).
    unfold bind. rewrite Hw'. eexists. split; [reflexivity|].
    cbn. rewrite Hready. reflexivity.
Qed.
End LachesisFacts.

(** ** The statements about the service *)

(** C2: bootstrap resolution fails as soon as a URL lacks the [enode://]
    prefix: [url2node] rejects that URL, [setBootstrap] returns that very
    error with the slots of the URLs after it still nil (they are never
    parsed); ["enode://abc@1.2.3.4:30303"] parses to host [1.2.3.4] and
    port [30303], ["http://x"] is rejected. *)
Theorem bootstrap_fails_fast :
  (forall (E : EnodeLib) (T : HostTypes) (O : HostOps)
          (Cfg : Svc.AppConfig) (w : Svc.world) (c : Config),
      Svc.cfg (Svc.nec w) = Some c ->
      Exists (fun u => HasPrefix u "enode://" = false) (Svc.LocalNode_V5Bootstrap Cfg) ->
      exists e w', Svc.setBootstrap Cfg w = Some (Some e, w'))
  /\ (forall (E : EnodeLib) (T : HostTypes) (O : HostOps)
             (Cfg : Svc.AppConfig) (w : Svc.world) (c : Config)
             (pre post : list string) (u : string) (nodes : list enode_Node),
         Svc.cfg (Svc.nec w) = Some c ->
         Svc.LocalNode_V5Bootstrap Cfg = pre ++ u :: post ->
         Forall2 (fun url n => url2node url = Ok n) pre nodes ->
         HasPrefix u "enode://" = false ->
         url2node u = Err ("invalid enode url [" +:+ u +:+ "]")
         /\ Svc.setBootstrap Cfg w =
              Some (Some ("invalid enode url [" +:+ u +:+ "]"),
                    withCfg (mkConfig (PrivateKey c)
                               (map Some nodes ++ replicate (S (length post)) None)) w))
  /\ @url2node NodeAddress.lib "enode://abc@1.2.3.4:30303"
       = Ok (NodeAddress.mkAddr "abc" "1.2.3.4" 30303)
  /\ (forall E : EnodeLib,
         @url2node E "enode://abc@1.2.3.4:30303" = enode_ParseV4 "enode://abc@1.2.3.4:30303"
         /\ @url2node E "http://x" = Err "invalid enode url [http://x]").
Proof.
  split; [|split; [|split]].
  - intros E T O Cfg w c Hc Hex.
    destruct (firstError_no_prefix _ Hex) as [e He].
    rewrite (setBootstrap_run Cfg w c Hc), He. eauto.
  - intros E T O Cfg w c pre post u nodes Hc Hurls Hpre Hu.
    pose proof (url2node_no_prefix u Hu) as Herr.
    split; [exact Herr|].
    destruct (parse_then_fail pre post nodes u _ Hpre Herr) as [Hp He].
    rewrite (setBootstrap_run Cfg w c Hc), Hurls, Hp, He.
    rewrite length_app, length_map. cbn [length].
    rewrite (Forall2_length _ _ _ Hpre).
    replace (length nodes + S (length post) - length nodes)%nat
      with (S (length post)) by lia.
    reflexivity.
  - reflexivity.
  - intros E. split; reflexivity.
Qed.

(** C8: when every bootstrap URL parses, [setBootstrap] succeeds and leaves
    a bootstrap list as long as the input whose i-th element is the node
    parsed from the i-th URL, in both versions of the service. *)
Theorem setBootstrap_keeps_order `{EnodeLib} `{HostTypes} `{!HostOps}
    (urls : list string) (nodes : list enode_Node) :
  Forall2 (fun url n => url2node url = Ok n) urls nodes ->
  (forall (Cfg : Svc.AppConfig) (w : Svc.world) (c : Config),
      Svc.LocalNode_V5Bootstrap Cfg = urls ->
      Svc.cfg (Svc.nec w) = Some c ->
      exists bn,
        Svc.setBootstrap Cfg w = Some (None, withCfg (mkConfig (PrivateKey c) bn) w)
        /\ bootnodesOf urls bn /\ bn = map Some nodes)
  /\ (forall (Cfg : Lachesis.AppConfig) (w : Lachesis.world) (c : Config),
         Lachesis.Lachesis_V5Bootstrap Cfg = urls ->
         Lachesis.cfg (Lachesis.nec w) = Some c ->
         exists bn,
           Lachesis.setBootstrap Cfg w =
             Some (None,
                   Lachesis.mkWorld
                     (Lachesis.mkCrawler (Some (mkConfig (PrivateKey c) bn))
                        (Lachesis.isReady (Lachesis.nec w))
                        (Lachesis.sigStop (Lachesis.nec w)))
                     (Lachesis.trace w))
           /\ bootnodesOf urls bn /\ bn = map Some nodes).
Proof.
  intros Hall. destruct (all_parse urls nodes Hall) as [Hp He].
  assert (Hbn : parsedUntilError urls
                ++ replicate (length urls - length (parsedUntilError urls)) None
                = map Some nodes).
  { rewrite Hp, length_map, (Forall2_length _ _ _ Hall), Nat.sub_diag.
    apply app_nil_r. }
  split.
  - intros Cfg w c Hurls Hc. exists (map Some nodes).
    rewrite (setBootstrap_run Cfg w c Hc), Hurls, He, Hbn.
    split; [reflexivity|]. split; [now apply bootnodesOf_map | reflexivity].
  - intros Cfg w c Hurls Hc. exists (map Some nodes).
    rewrite (Lachesis_setBootstrap_run Cfg w c Hc), Hurls, He, Hbn.
    split; [reflexivity|]. split; [now apply bootnodesOf_map | reflexivity].
Qed.

Lemma bootstrap_fails_fast_witness :
  (exists e w', Svc.setBootstrap DemoHost.badBootstrap DemoHost.allocated = Some (Some e, w'))
  /\ @url2node NodeAddress.lib "http://x" = Err "invalid enode url [http://x]"
  /\ Svc.setBootstrap DemoHost.badBootstrap DemoHost.allocated =
       Some (Some "invalid enode url [http://x]",
             withCfg (mkConfig None
                        [Some (NodeAddress.mkAddr "abc" "1.2.3.4" 30303); None; None])
                     DemoHost.allocated).
Proof.
  destruct bootstrap_fails_fast as (Hany & Hfirst & _ & _).
  split.
  - apply (Hany NodeAddress.lib DemoHost.types DemoHost.ops
                DemoHost.badBootstrap DemoHost.allocated (mkConfig None [])).
    + reflexivity.
    + apply Exists_cons_tl, Exists_cons_hd. reflexivity.
  - apply (Hfirst NodeAddress.lib DemoHost.types DemoHost.ops
                  DemoHost.badBootstrap DemoHost.allocated (mkConfig None [])
                  ["enode://abc@1.2.3.4:30303"] ["enode://def@5.6.7.8:30304"]
                  "http://x" [NodeAddress.mkAddr "abc" "1.2.3.4" 30303]).
    + reflexivity.
    + reflexivity.
    + repeat constructor.
    + reflexivity.
Defined.

Lemma setBootstrap_keeps_order_witness :
  exists bn,
    Svc.setBootstrap DemoHost.goodBootstrap DemoHost.allocated =
      Some (None, withCfg (mkConfig None bn) DemoHost.allocated)
    /\ bootnodesOf ["enode://abc@1.2.3.4:30303"; "enode://def@5.6.7.8:30304"] bn
    /\ bn = [Some (NodeAddress.mkAddr "abc" "1.2.3.4" 30303);
             Some (NodeAddress.mkAddr "def" "5.6.7.8" 30304)].
Proof.
  destruct (@setBootstrap_keeps_order NodeAddress.lib DemoHost.types DemoHost.ops
              ["enode://abc@1.2.3.4:30303"; "enode://def@5.6.7.8:30304"]
              [NodeAddress.mkAddr "abc" "1.2.3.4" 30303;
               NodeAddress.mkAddr "def" "5.6.7.8" 30304]) as [Hsvc _].
  - repeat constructor.
  - apply (Hsvc DemoHost.goodBootstrap DemoHost.allocated (mkConfig None []));
      reflexivity.
Defined.

(** C3: when identity resolution, bootstrap resolution or the opening of the
    node registry fails during [init] of a crawler that is not ready, [init]
    returns with [isReady] still false, and any number of later [run] calls
    only log: the local node is not created, the orchestrator gets no
    "started" signal and no crawl goroutine is started. *)
Theorem failed_init_never_runs `{EnodeLib} `{HostTypes} `{!HostOps}
    (Cfg : Svc.AppConfig) (w : Svc.world) (k : nat) :
  Svc.isReady (Svc.nec w) = false ->
  identityFails Cfg \/ bootstrapFails Cfg \/ registryFails Cfg ->
  exists w1 logs,
    Svc.init Cfg w = Some (tt, w1)
    /\ Svc.isReady (Svc.nec w1) = false
    /\ Svc.trace w1 = Svc.trace w ++ logs /\ forallb isLog logs = true
    /\ exists w2 evs,
         Svc.runs Cfg k w1 = Some (tt, w2)
         /\ Svc.nec w2 = Svc.nec w1
         /\ Svc.node (Svc.nec w2) = Svc.node (Svc.nec w)
         /\ Svc.trace w2 = Svc.trace w1 ++ evs
         /\ evs = replicate k notReady
         /\ ~ In EvNewLocalNode evs
         /\ ~ In (EvStarted Svc.name) evs
         /\ ~ In (EvGo "crawl") evs.
Proof.
  intros Hr Hfail.
  destruct (init_run Cfg w) as (w1 & logs & Hinit & Hnode & _ & Htr & Hlogs & Hkeep & _).
  specialize (Hkeep Hfail). rewrite Hr in Hkeep.
  exists w1, logs. repeat (split; [assumption|]).
  exists (Svc.mkWorld (Svc.nec w1) (Svc.trace w1 ++ replicate k notReady)),
         (replicate k notReady).
  split; [now apply runs_not_ready|]. cbn [Svc.nec Svc.trace].
  repeat (split; [first [reflexivity | assumption]|]).
  repeat split; intros Hin; apply list_elem_of_In, elem_of_replicate in Hin;
    destruct Hin as [Hin _]; discriminate.
Qed.

Lemma failed_init_never_runs_witness :
  exists w1 logs,
    Svc.init DemoHost.badBootstrap DemoHost.fresh = Some (tt, w1)
    /\ Svc.isReady (Svc.nec w1) = false
    /\ Svc.trace w1 = [] ++ logs /\ forallb isLog logs = true
    /\ exists w2 evs,
         Svc.runs DemoHost.badBootstrap 2 w1 = Some (tt, w2)
         /\ Svc.nec w2 = Svc.nec w1
         /\ Svc.node (Svc.nec w2) = None
         /\ Svc.trace w2 = Svc.trace w1 ++ evs
         /\ evs = [notReady; notReady]
         /\ ~ In EvNewLocalNode evs
         /\ ~ In (EvStarted Svc.name) evs
         /\ ~ In (EvGo "crawl") evs.
Proof.
  apply (failed_init_never_runs DemoHost.badBootstrap DemoHost.fresh 2).
  - reflexivity.
  - right. left. apply Exists_cons_tl, Exists_cons_hd. reflexivity.
Defined.

(** C4: whenever [crawl] returns it has closed the discovery exactly once
    and then emitted exactly one "finished" signal, never the signal before
    the close; with the discovery in place it does return. *)
Theorem crawl_closes_then_finishes `{EnodeLib} `{HostTypes} (w : Svc.world) :
  (Svc.disc (Svc.nec w) <> None -> exists w', Svc.crawl w = Some (tt, w'))
  /\ (forall w', Svc.crawl w = Some (tt, w') ->
      exists evs,
        Svc.trace w' = Svc.trace w ++ evs
        /\ evs = [EvDiscClose; EvFinished Svc.name]
        /\ count_occ event_eq_dec evs EvDiscClose = 1%nat
        /\ (forall svc, count_occ event_eq_dec evs (EvFinished svc)
                        = if decide (svc = Svc.name) then 1%nat else 0%nat)
        /\ closedBeforeFinished evs).
Proof.
  split.
  - destruct (Svc.disc (Svc.nec w)) as [d|] eqn:Hd; [|congruence].
    intros _. rewrite (crawl_run w d Hd). eauto.
  - intros w' Hrun.
    destruct (Svc.disc (Svc.nec w)) as [d|] eqn:Hd.
    2: { rewrite (crawl_nil w Hd) in Hrun. discriminate. }
    rewrite (crawl_run w d Hd) in Hrun. injection Hrun as <-.
    exists [EvDiscClose; EvFinished Svc.name]. cbn [Svc.trace].
    split; [reflexivity|]. split; [reflexivity|].
    split; [reflexivity|]. split.
    + intros svc. cbn [count_occ].
      destruct (event_eq_dec EvDiscClose (EvFinished svc)) as [Hx|_]; [discriminate|].
      destruct (event_eq_dec (EvFinished Svc.name) (EvFinished svc)) as [Hx|Hx];
        destruct (decide (svc = Svc.name)) as [Hy|Hy]; try reflexivity.
      * exfalso. apply Hy. now injection Hx.
      * exfalso. apply Hx. now rewrite Hy.
    + intros pre svc post Heq.
      destruct pre as [|a pre]; [discriminate|].
      injection Heq as <- _. now left.
Qed.

Lemma crawl_closes_then_finishes_witness :
  (exists w', Svc.crawl DemoHost.listening = Some (tt, w'))
  /\ exists evs,
       DemoHost.listening.(Svc.trace) ++ [EvDiscClose; EvFinished "network crawler"]
         = Svc.trace DemoHost.listening ++ evs
       /\ evs = [EvDiscClose; EvFinished Svc.name]
       /\ count_occ event_eq_dec evs EvDiscClose = 1%nat
       /\ (forall svc, count_occ event_eq_dec evs (EvFinished svc)
                       = if decide (svc = Svc.name) then 1%nat else 0%nat)
       /\ closedBeforeFinished evs.
Proof.
  destruct (crawl_closes_then_finishes DemoHost.listening) as [Hret Hevs].
  split.
  - apply Hret. discriminate.
  - apply (Hevs (Svc.mkWorld (Svc.nec DemoHost.listening)
                   (Svc.trace DemoHost.listening
                    ++ [EvDiscClose; EvFinished "network crawler"]))).
    reflexivity.
Defined.

(** C7: identity resolution.  With no key configured, [setPrivateKey] stores
    the freshly generated keypair and returns no error (the generator's own
    error, if any, is what it returns); a configured key is parsed into the
    keypair, and a key that does not parse makes [setPrivateKey] return the
    parse error with no keypair stored, so that [configure] fails and [init]
    does not make the crawler ready.  In the version whose configuration
    already holds the keypair, that keypair is stored as it is. *)
Theorem setPrivateKey_identity `{EnodeLib} `{HostTypes} `{!HostOps}
    (Cfg : Lachesis.AppConfig) (w : Lachesis.world) (c : Config)
    (Cfg' : Svc.AppConfig) (w' : Svc.world) (c' : Config) :
  Lachesis.cfg (Lachesis.nec w) = Some c ->
  Svc.cfg (Svc.nec w') = Some c' ->
  let stored k :=
    Lachesis.mkWorld
      (Lachesis.mkCrawler (Some (mkConfig k (Bootnodes c)))
         (Lachesis.isReady (Lachesis.nec w)) (Lachesis.sigStop (Lachesis.nec w)))
      (Lachesis.trace w) in
  (Lachesis.Lachesis_NodeKey Cfg = "" ->
     (forall k, crypto_GenerateKey = Ok k ->
        Lachesis.setPrivateKey Cfg w = Some (None, stored (Some k)))
     /\ (forall e, crypto_GenerateKey = Err e ->
        Lachesis.setPrivateKey Cfg w = Some (Some e, stored None)))
  /\ (Lachesis.Lachesis_NodeKey Cfg <> "" ->
      forall k, crypto_HexToECDSA (Lachesis.Lachesis_NodeKey Cfg) = Ok k ->
        Lachesis.setPrivateKey Cfg w = Some (None, stored (Some k)))
  /\ (Lachesis.Lachesis_NodeKey Cfg <> "" ->
      forall e, crypto_HexToECDSA (Lachesis.Lachesis_NodeKey Cfg) = Err e ->
        Lachesis.setPrivateKey Cfg w = Some (Some e, stored None)
        /\ (exists w2, Lachesis.configure Cfg w = Some (Some e, w2))
        /\ (exists w1, Lachesis.init Cfg w = Some (tt, w1)
                       /\ Lachesis.isReady (Lachesis.nec w1)
                          = Lachesis.isReady (Lachesis.nec w)))
  /\ (Svc.Sig_PrivateKey Cfg' = None ->
      (forall k, crypto_GenerateKey = Ok k ->
         Svc.setPrivateKey Cfg' w' =
           Some (None, withCfg (mkConfig (Some k) (Bootnodes c')) w'))
      /\ (forall e, crypto_GenerateKey = Err e ->
         Svc.setPrivateKey Cfg' w' =
           Some (Some e, withCfg (mkConfig None (Bootnodes c')) w')))
  /\ (forall k, Svc.Sig_PrivateKey Cfg' = Some k ->
        Svc.setPrivateKey Cfg' w' =
          Some (None, withCfg (mkConfig (Some k) (Bootnodes c')) w')).
Proof.
  intros Hc Hc' stored. subst stored.
  pose proof (Lachesis_setPrivateKey_run Cfg w c Hc) as Hrun. cbn zeta in Hrun.
  pose proof (setPrivateKey_run Cfg' w' c' Hc') as Hrun'.
  unfold identityOutcome in Hrun'.
  split; [|split; [|split; [|split]]].
  - intros Hkey. rewrite Hkey in Hrun. cbn in Hrun.
    split; intros x Hg; rewrite Hg in Hrun; exact Hrun.
  - intros Hkey k Hp. apply String.eqb_neq in Hkey.
    rewrite Hkey, Hp in Hrun. exact Hrun.
  - intros Hkey e Hp. split.
    + apply String.eqb_neq in Hkey. rewrite Hkey, Hp in Hrun. exact Hrun.
    + exact (Lachesis_bad_key Cfg w e Hkey Hp).
  - intros Hkey. rewrite Hkey in Hrun'.
    split; intros x Hg; rewrite Hg in Hrun'; exact Hrun'.
  - intros k Hkey. rewrite Hkey in Hrun'. exact Hrun'.
Qed.

Lemma setPrivateKey_identity_witness :
  Lachesis.setPrivateKey DemoHost.noKey DemoHost.allocated0 =
    Some (None, Lachesis.mkWorld
                  (Lachesis.mkCrawler (Some (mkConfig (Some 42) [])) false None) [])
  /\ Lachesis.setPrivateKey DemoHost.hexKey DemoHost.allocated0 =
    Some (None, Lachesis.mkWorld
                  (Lachesis.mkCrawler (Some (mkConfig (Some 42) [])) false None) [])
  /\ Lachesis.setPrivateKey DemoHost.badKey DemoHost.allocated0 =
    Some (Some "invalid hex character",
          Lachesis.mkWorld (Lachesis.mkCrawler (Some (mkConfig None [])) false None) [])
  /\ Svc.setPrivateKey DemoHost.goodBootstrap DemoHost.allocated =
    Some (None, withCfg (mkConfig (Some 7) []) DemoHost.allocated).
Proof.
  pose proof (fun C C' =>
    @setPrivateKey_identity NodeAddress.lib DemoHost.types DemoHost.ops
      C DemoHost.allocated0 (mkConfig None [])
      C' DemoHost.allocated (mkConfig None []) eq_refl eq_refl) as Hthm.
  cbn zeta in Hthm.
  split; [|split; [|split]].
  - destruct (Hthm DemoHost.noKey DemoHost.goodBootstrap) as ([Hgen _] & _).
    + reflexivity.
    + apply (Hgen 42). reflexivity.
  - destruct (Hthm DemoHost.hexKey DemoHost.goodBootstrap) as (_ & Hparse & _).
    apply (Hparse ltac:(discriminate) 42). reflexivity.
  - destruct (Hthm DemoHost.badKey DemoHost.goodBootstrap) as (_ & _ & Hbad & _).
    apply (Hbad ltac:(discriminate) "invalid hex character"). reflexivity.
  - destruct (Hthm DemoHost.noKey DemoHost.goodBootstrap) as (_ & _ & _ & _ & Hcfg).
    apply (Hcfg 7). reflexivity.
Defined.

(** A whole life of the service on the demonstration host: [init], [run],
    then the crawl goroutine. *)
Example lifecycle_on_demo_host :
  exists w1 w2 w3,
    Svc.init DemoHost.goodBootstrap DemoHost.fresh = Some (tt, w1)
    /\ Svc.isReady (Svc.nec w1) = true
    /\ Svc.run DemoHost.goodBootstrap w1 = Some (tt, w2)
    /\ Svc.crawl w2 = Some (tt, w3)
    /\ Svc.trace w3 =
         [EvNewLocalNode; EvStarted "network crawler"; EvGo "crawl";
          EvDiscClose; EvFinished "network crawler"].
Proof. do 3 eexists. repeat split. Qed.

(** The same host with a malformed bootstrap list stays inert. *)
Example inert_on_bad_bootstrap :
  exists w1 w2,
    Svc.init DemoHost.badBootstrap DemoHost.fresh = Some (tt, w1)
    /\ Svc.run DemoHost.badBootstrap w1 = Some (tt, w2)
    /\ Svc.crawl w2 = None
    /\ Svc.trace w2 =
         [EvCritical "can not run local discovery; invalid enode url [http://x]";
          EvCritical "network crawler not ready and will not run"].
Proof. do 2 eexists. repeat split. Qed.

(** * Further properties of the code *)

(** ** Node addresses and the bootstrap list *)
Section MoreBootstrapFacts.
Context `{EnodeLib} `{HostTypes} `{!HostOps}.

(** Every list of URLs either parses as a whole or splits at its first
    URL that does not parse. *)
Lemma urls_parse_or_split (urls : list string) :
  (exists nodes, Forall2 (fun u n => url2node u = Ok n) urls nodes)
  \/ (exists pre u post nodes e,
        urls = pre ++ u :: post
        /\ Forall2 (fun u n => url2node u = Ok n) pre nodes
        /\ url2node u = Err e).
Proof.
  induction urls as [|u urls IH].
  - left. exists []. constructor.
  - destruct (url2node u) as [n|e] eqn:Hu.
    + destruct IH as [[nodes Hall] | (pre & v & post & nodes & e & Heq & Hpre & Hv)].
      * left. exists (n :: nodes). now constructor.
      * right. exists (u :: pre), v, post, (n :: nodes), e.
        split; [now rewrite Heq|]. split; [now constructor | exact Hv].
    + right. exists [], u, urls, [], e. repeat split; [constructor | exact Hu].
Qed.

(** X2: on an allocated configuration [setBootstrap] never panics and has
    one of two outcomes: every URL parses, no error, and the list holds
    their nodes; or it returns the error of the first URL that does not
    parse (whatever the reason), with the earlier slots filled and the
    slot of that URL and all later ones nil.  The private key is kept. *)
Theorem setBootstrap_outcome (Cfg : Svc.AppConfig) (w : Svc.world) (c : Config) :
  Svc.cfg (Svc.nec w) = Some c ->
  (exists nodes,
      Forall2 (fun u n => url2node u = Ok n) (Svc.LocalNode_V5Bootstrap Cfg) nodes
      /\ Svc.setBootstrap Cfg w =
           Some (None, withCfg (mkConfig (PrivateKey c) (map Some nodes)) w))
  \/ (exists pre u post nodes e,
        Svc.LocalNode_V5Bootstrap Cfg = pre ++ u :: post
        /\ Forall2 (fun u n => url2node u = Ok n) pre nodes
        /\ url2node u = Err e
        /\ Svc.setBootstrap Cfg w =
             Some (Some e,
                   withCfg (mkConfig (PrivateKey c)
                              (map Some nodes ++ replicate (S (length post)) None)) w)).
Proof.
  intros Hc. rewrite (setBootstrap_run Cfg w c Hc).
  destruct (urls_parse_or_split (Svc.LocalNode_V5Bootstrap Cfg))
    as [[nodes Hall] | (pre & u & post & nodes & e & Heq & Hpre & Hu)].
  - left. exists nodes. split; [exact Hall|].
    destruct (all_parse _ _ Hall) as [Hp He]. rewrite Hp, He.
    rewrite length_map, (Forall2_length _ _ _ Hall), Nat.sub_diag.
    cbn [replicate]. now rewrite app_nil_r.
  - right. exists pre, u, post, nodes, e.
    repeat (split; [assumption|]).
    destruct (parse_then_fail pre post nodes u e Hpre Hu) as [Hp He].
    rewrite Heq, Hp, He, length_app, length_map. cbn [length].
    rewrite (Forall2_length _ _ _ Hpre).
    now replace (length nodes + S (length post) - length nodes)%nat
      with (S (length post)) by lia.
Qed.

End MoreBootstrapFacts.

Lemma setBootstrap_outcome_witness :
  exists pre u post nodes e,
    Svc.LocalNode_V5Bootstrap DemoHost.badBootstrap = pre ++ u :: post
    /\ Forall2 (fun u n => url2node u = Ok n) pre nodes
    /\ url2node u = Err e
    /\ Svc.setBootstrap DemoHost.badBootstrap DemoHost.allocated =
         Some (Some e,
               withCfg (mkConfig None (map Some nodes ++ replicate (S (length post)) None))
                       DemoHost.allocated).
Proof.
  destruct (@setBootstrap_outcome NodeAddress.lib DemoHost.types
              DemoHost.badBootstrap DemoHost.allocated (mkConfig None []) eq_refl)
    as [(nodes & Hall & _) | Hsplit].
  - exfalso. inversion Hall as [|? ? ? ? _ Hrest]; subst.
    inversion Hrest as [|? ? ? ? Hbad _]; subst. discriminate Hbad.
  - exact Hsplit.
Defined.

(** ** Configuration, start and readiness of the service *)
Section MoreSvcFacts.
Context `{EnodeLib} `{HostTypes} `{!HostOps}.
Import Svc.
Variable Cfg : AppConfig.

(** [configure] step by step: the outcome of each step decides whether the
    next one is taken. *)
Lemma configure_eval (w : world) :
  configure Cfg w =
    match identityOutcome Cfg with
    | Err e => Some (Some e, withCfg (mkConfig None []) w)
    | Ok k =>
        let bn := parsedUntilError (LocalNode_V5Bootstrap Cfg)
                  ++ replicate (length (LocalNode_V5Bootstrap Cfg)
                                - length (parsedUntilError (LocalNode_V5Bootstrap Cfg)))
                               None in
        match firstError (LocalNode_V5Bootstrap Cfg) with
        | Some e => Some (Some e, withCfg (mkConfig (Some k) bn) w)
        | None =>
            match enode_OpenDB (LocalNode_DbPath Cfg) with
            | Err e =>
                Some (Some e,
                      mkWorld (set_cfg (Some (mkConfig (Some k) bn)) (nec w))
                              (trace w ++ [EvCritical ("can not open node database; " +:+ e)]))
            | Ok d =>
                Some (None,
                      mkWorld (set_db (Some d) (set_cfg (Some (mkConfig (Some k) bn)) (nec w)))
                              (trace w))
            end
        end
    end.
Proof.
  unfold configure. unfold bind at 1. unfold update at 1, modify.
  set (w0 := mkWorld _ _).
  assert (Hc0 : cfg (nec w0) = Some (mkConfig None [])) by reflexivity.
  unfold bind at 1. rewrite (setPrivateKey_run Cfg w0 _ Hc0).
  destruct (identityOutcome Cfg) as [k|e]; cbn [failure value]; [|reflexivity].
  set (w1 := withCfg _ w0).
  assert (Hc1 : cfg (nec w1) = Some (mkConfig (Some k) [])) by reflexivity.
  unfold bind at 1. rewrite (setBootstrap_run Cfg w1 _ Hc1). cbn zeta.
  destruct (firstError (LocalNode_V5Bootstrap Cfg)) as [e|]; [reflexivity|].
  unfold openNodesDatabase.
  destruct (enode_OpenDB (LocalNode_DbPath Cfg)) as [d|e]; reflexivity.
Qed.

(** X4: when a key is at hand (configured, or generated), every bootstrap URL
    parses and the registry opens, [init] leaves the crawler ready with the
    key and the parsed nodes, in input order, in its configuration, the
    opened registry in [db], a one-slot stop channel, and no log line. *)
Theorem init_success_state (w : world) (k : ecdsa_PrivateKey)
    (nodes : list enode_Node) (d : enode_DB) :
  identityOutcome Cfg = Ok k ->
  Forall2 (fun u n => url2node u = Ok n) (LocalNode_V5Bootstrap Cfg) nodes ->
  enode_OpenDB (LocalNode_DbPath Cfg) = Ok d ->
  init Cfg w =
    Some (tt, mkWorld
                (mkCrawler (Some (mkConfig (Some k) (map Some nodes))) (Some d)
                           (node (nec w)) (disc (nec w)) true (Some (mkChan 1 [])))
                (trace w)).
Proof.
  intros Hk Hall Hdb. unfold init. unfold bind at 1. unfold update at 1, modify.
  unfold bind. rewrite configure_eval, Hk. cbn zeta.
  destruct (all_parse _ _ Hall) as [Hp He]. rewrite He, Hdb, Hp.
  rewrite length_map, (Forall2_length _ _ _ Hall), Nat.sub_diag.
  cbn [replicate]. rewrite app_nil_r. reflexivity.
Qed.

(** X5: [configure] stops at the first step that fails.  Without a key the
    bootstrap list stays empty; with a bootstrap URL that does not parse the
    key is already stored and the list is filled up to that URL; in both
    cases the registry is not opened ([db] keeps its value) and [configure]
    itself logs nothing. *)
Theorem configure_stops_at_first_failure (w : world) :
  (forall e, identityOutcome Cfg = Err e ->
     exists w', configure Cfg w = Some (Some e, w')
       /\ cfg (nec w') = Some (mkConfig None [])
       /\ db (nec w') = db (nec w) /\ trace w' = trace w)
  /\ (forall k pre u post nodes e,
        identityOutcome Cfg = Ok k ->
        LocalNode_V5Bootstrap Cfg = pre ++ u :: post ->
        Forall2 (fun u n => url2node u = Ok n) pre nodes ->
        url2node u = Err e ->
        exists w', configure Cfg w = Some (Some e, w')
          /\ cfg (nec w') =
               Some (mkConfig (Some k) (map Some nodes ++ replicate (S (length post)) None))
          /\ db (nec w') = db (nec w) /\ trace w' = trace w).
Proof.
  split.
  - intros e Hk. rewrite configure_eval, Hk. eexists. repeat split.
  - intros k pre u post nodes e Hk Hurls Hpre Hu.
    rewrite configure_eval, Hk. cbn zeta.
    destruct (parse_then_fail pre post nodes u e Hpre Hu) as [Hp He].
    rewrite Hurls, He, Hp. eexists. split; [reflexivity|]. cbn.
    rewrite length_app, length_map. cbn [length].
    rewrite (Forall2_length _ _ _ Hpre).
    replace (length nodes + S (length post) - length nodes)%nat
      with (S (length post)) by lia.
    repeat split.
Qed.

(** X6: when only the opening of the registry fails, the failure is logged
    twice, by [openNodesDatabase] and then by [init]; the key and the
    bootstrap nodes are already in the configuration, [db] and [isReady]
    keep their values. *)
Theorem registry_failure_logged_twice (w : world) (k : ecdsa_PrivateKey)
    (nodes : list enode_Node) (e : error) :
  identityOutcome Cfg = Ok k ->
  Forall2 (fun u n => url2node u = Ok n) (LocalNode_V5Bootstrap Cfg) nodes ->
  enode_OpenDB (LocalNode_DbPath Cfg) = Err e ->
  exists w1,
    init Cfg w = Some (tt, w1)
    /\ trace w1 = trace w ++ [EvCritical ("can not open node database; " +:+ e);
                              EvCritical ("can not run local discovery; " +:+ e)]
    /\ cfg (nec w1) = Some (mkConfig (Some k) (map Some nodes))
    /\ db (nec w1) = db (nec w)
    /\ isReady (nec w1) = isReady (nec w).
Proof.
  intros Hk Hall Hdb. unfold init. unfold bind at 1. unfold update at 1, modify.
  unfold bind. rewrite configure_eval, Hk. cbn zeta.
  destruct (all_parse _ _ Hall) as [Hp He]. rewrite He, Hdb, Hp.
  rewrite length_map, (Forall2_length _ _ _ Hall), Nat.sub_diag.
  cbn [replicate]. rewrite app_nil_r.
  eexists. split; [reflexivity|]. cbn. rewrite <- app_assoc. repeat split.
Qed.
End MoreSvcFacts.

Section RunFacts.
Context `{EnodeLib} `{HostTypes} `{!HostOps}.
Import Svc.
Variable Cfg : AppConfig.

(** The local node [run] makes for a socket bound to [addr]. *)
Lemma run_eval_ready (w : world) (c : Config) (socket : Net.PacketConn) :
  isReady (nec w) = true ->
  cfg (nec w) = Some c ->
  net_ListenPacket "udp4" (LocalNode_BindAddress Cfg) = Ok socket ->
  let addr := Net.LocalAddr socket in
  let ip := if IP_IsUnspecified (Net.addrIP addr) then [127; 0; 0; 1] else Net.addrIP addr in
  let ln := SetFallbackUDP (Net.addrPort addr)
              (SetFallbackIP ip (NewLocalNode (db (nec w)) (PrivateKey c))) in
  run Cfg w =
    match discover_ListenV5 socket ln c with
    | Ok d =>
        Some (tt, mkWorld (set_disc (Some d) (set_node (Some ln) (nec w)))
                          (trace w ++ [EvNewLocalNode; EvStarted name; EvGo "crawl"]))
    | Err e =>
        Some (tt, mkWorld (set_disc None (set_node (Some ln) (nec w)))
                          (trace w ++ [EvNewLocalNode;
                                       EvCritical ("can not start discovery protocol; " +:+ e);
                                       notReady]))
    end.
Proof.
  intros Hr Hc Hs addr ip ln. unfold run, bind, get. rewrite Hr, Hc. cbn.
  unfold listen. rewrite Hs. unfold bind, get. cbn. rewrite Hc. cbn.
  subst ln ip addr.
  destruct (IP_IsUnspecified (Net.addrIP (Net.LocalAddr socket)));
    match goal with |- context [discover_ListenV5 ?a ?b ?c] =>
      destruct (discover_ListenV5 a b c) as [d|e] end;
    unfold emit, log_Criticalf, emit, update, modify, ret, bind; cbn;
    rewrite <- !app_assoc; reflexivity.
Qed.

Lemma run_eval_no_socket (w : world) (c : Config) (e : error) :
  isReady (nec w) = true ->
  cfg (nec w) = Some c ->
  net_ListenPacket "udp4" (LocalNode_BindAddress Cfg) = Err e ->
  run Cfg w =
    Some (tt, mkWorld (set_node (Some (NewLocalNode (db (nec w)) (PrivateKey c))) (nec w))
                      (trace w ++ [EvNewLocalNode;
                                   EvCritical ("can not open p2p node socket at ["
                                               +:+ LocalNode_BindAddress Cfg +:+ "]; " +:+ e);
                                   notReady])).
Proof.
  intros Hr Hc Hs. unfold run, bind, get. rewrite Hr, Hc. cbn.
  unfold listen. rewrite Hs.
  unfold log_Criticalf, emit, update, modify, ret, bind. cbn.
  rewrite <- !app_assoc. reflexivity.
Qed.

(** [run] on a ready crawler without a configuration dereferences nil. *)
Lemma run_ready_nil_cfg (w : world) :
  isReady (nec w) = true -> cfg (nec w) = None -> run Cfg w = None.
Proof. intros Hr Hc. unfold run, bind, get. now rewrite Hr, Hc. Qed.

(** What a returning [run] has done, case by case. *)
Lemma run_cases (w w' : world) :
  run Cfg w = Some (tt, w') ->
  (isReady (nec w) = false /\ w' = mkWorld (nec w) (trace w ++ [notReady]))
  \/ (isReady (nec w) = true /\ exists ln,
        (exists msg, w' = mkWorld (set_node (Some ln) (nec w))
                                  (trace w ++ [EvNewLocalNode; EvCritical msg; notReady]))
        \/ (exists msg, w' = mkWorld (set_disc None (set_node (Some ln) (nec w)))
                                     (trace w ++ [EvNewLocalNode; EvCritical msg; notReady]))
        \/ (exists d, w' = mkWorld (set_disc (Some d) (set_node (Some ln) (nec w)))
                                   (trace w ++ [EvNewLocalNode; EvStarted name; EvGo "crawl"]))).
Proof.
  intros Hrun.
  destruct (isReady (nec w)) eqn:Hr.
  2: { left. rewrite (run_not_ready Cfg w Hr) in Hrun. injection Hrun as <-. now split. }
  right. split; [reflexivity|].
  destruct (cfg (nec w)) as [c|] eqn:Hc.
  2: { rewrite (run_ready_nil_cfg w Hr Hc) in Hrun. discriminate. }
  destruct (net_ListenPacket "udp4" (LocalNode_BindAddress Cfg)) as [socket|e] eqn:Hs.
  - rewrite (run_eval_ready w c socket Hr Hc Hs) in Hrun. cbn zeta in Hrun.
    match type of Hrun with context [discover_ListenV5 ?a ?b ?c] =>
      exists b; destruct (discover_ListenV5 a b c) as [d|e] end;
      injection Hrun as <-; eauto.
  - rewrite (run_eval_no_socket w c e Hr Hc Hs) in Hrun. injection Hrun as <-. eauto.
Qed.

(** X7: nothing the service does makes a ready crawler not ready again:
    [init] (also one whose configuration fails), [run] and [crawl] all keep
    [isReady] once it is true. *)
Theorem isReady_never_reset (w w' : world) :
  isReady (nec w) = true ->
  init Cfg w = Some (tt, w') \/ run Cfg w = Some (tt, w') \/ crawl w = Some (tt, w') ->
  isReady (nec w') = true.
Proof.
  intros Hr [Hinit | [Hrun | Hcrawl]].
  - destruct (init_run Cfg w) as (w1 & logs & Hw1 & _ & _ & _ & _ & Hkeep & Hset).
    rewrite Hw1 in Hinit. injection Hinit as <-.
    unfold init in Hw1. unfold bind at 1 in Hw1. unfold update at 1, modify in Hw1.
    unfold bind in Hw1. rewrite configure_eval in Hw1.
    destruct (identityOutcome Cfg) as [k|e]; cbn zeta in Hw1.
    2: { injection Hw1 as <-. exact Hr. }
    destruct (firstError (LocalNode_V5Bootstrap Cfg)) as [e|].
    { injection Hw1 as <-. exact Hr. }
    destruct (enode_OpenDB (LocalNode_DbPath Cfg)) as [d|e];
      injection Hw1 as <-; [reflexivity | exact Hr].
  - destruct (run_cases w w' Hrun) as [[Hf _] | [_ (ln & [[m ->] | [[m ->] | [d ->]]])]];
      [congruence | exact Hr ..].
  - destruct (disc (nec w)) as [d|] eqn:Hd.
    + rewrite (crawl_run w d Hd) in Hcrawl. injection Hcrawl as <-. exact Hr.
    + rewrite (crawl_nil w Hd) in Hcrawl. discriminate.
Qed.

(** X8: readiness means a complete configuration.  When [init] of a crawler
    that was not ready leaves it ready, the configuration holds a key and the
    node of every bootstrap URL, in order, the registry is open and stored in
    [db], and [init] has logged nothing. *)
Theorem ready_after_init_is_configured (w w1 : world) :
  isReady (nec w) = false ->
  init Cfg w = Some (tt, w1) ->
  isReady (nec w1) = true ->
  exists k nodes d,
    identityOutcome Cfg = Ok k
    /\ Forall2 (fun u n => url2node u = Ok n) (LocalNode_V5Bootstrap Cfg) nodes
    /\ enode_OpenDB (LocalNode_DbPath Cfg) = Ok d
    /\ cfg (nec w1) = Some (mkConfig (Some k) (map Some nodes))
    /\ db (nec w1) = Some d
    /\ trace w1 = trace w.
Proof.
  intros Hr Hinit Hready.
  unfold init in Hinit. unfold bind at 1 in Hinit. unfold update at 1, modify in Hinit.
  unfold bind in Hinit. rewrite configure_eval in Hinit.
  destruct (identityOutcome Cfg) as [k|e]; cbn zeta in Hinit.
  2: { injection Hinit as <-. cbn in Hready. congruence. }
  destruct (urls_parse_or_split (LocalNode_V5Bootstrap Cfg))
    as [[nodes Hall] | (pre & u & post & nodes & e & Heq & Hpre & Hu)].
  - destruct (all_parse _ _ Hall) as [Hp He]. rewrite He, Hp in Hinit.
    rewrite length_map, (Forall2_length _ _ _ Hall), Nat.sub_diag in Hinit.
    cbn [replicate] in Hinit. rewrite app_nil_r in Hinit.
    destruct (enode_OpenDB (LocalNode_DbPath Cfg)) as [d|e].
    + injection Hinit as <-. exists k, nodes, d. repeat split; assumption.
    + injection Hinit as <-. cbn in Hready. congruence.
  - destruct (parse_then_fail pre post nodes u e Hpre Hu) as [_ He].
    rewrite Heq, He in Hinit. injection Hinit as <-. cbn in Hready. congruence.
Qed.

(** X9: a [run] that returns has done one of three things.  Not ready: one
    log line, the crawler untouched.  Ready but the socket or the discovery
    does not start: the local node is created, one failure is logged, then
    the not-ready line, and nothing is started.  Otherwise: the local node is
    created, the orchestrator gets "started" once, and only then the crawl
    goroutine is started, with the discovery set.  [isReady], [cfg] and [db]
    are never changed. *)
Theorem run_outcomes (w w' : world) :
  run Cfg w = Some (tt, w') ->
  isReady (nec w') = isReady (nec w)
  /\ cfg (nec w') = cfg (nec w)
  /\ db (nec w') = db (nec w)
  /\ exists evs,
       trace w' = trace w ++ evs
       /\ ((isReady (nec w) = false /\ evs = [notReady] /\ nec w' = nec w)
           \/ (isReady (nec w) = true
               /\ (exists msg, evs = [EvNewLocalNode; EvCritical msg; notReady])
               /\ node (nec w') <> None)
           \/ (isReady (nec w) = true
               /\ evs = [EvNewLocalNode; EvStarted name; EvGo "crawl"]
               /\ node (nec w') <> None /\ disc (nec w') <> None)).
Proof.
  intros Hrun.
  destruct (run_cases w w' Hrun) as [[Hf ->] | [Ht (ln & [[m ->] | [[m ->] | [d ->]]])]];
    cbn; repeat (split; [reflexivity|]); eexists; (split; [reflexivity|]).
  - left. auto.
  - right. left. repeat split; eauto; discriminate.
  - right. left. repeat split; eauto; discriminate.
  - right. right. repeat split; auto; discriminate.
Qed.

End RunFacts.

Lemma ready_after_init_is_configured_witness :
  let w1 : @Svc.world NodeAddress.lib DemoHost.types :=
    Svc.mkWorld
      (Svc.mkCrawler
         (Some (@mkConfig NodeAddress.lib DemoHost.types (Some 7)
                  [Some (NodeAddress.mkAddr "abc" "1.2.3.4" 30303);
                   Some (NodeAddress.mkAddr "def" "5.6.7.8" 30304)]))
         (Some "") None None true (Some (mkChan 1 [])))
      [] in
  exists k nodes d,
    @identityOutcome NodeAddress.lib DemoHost.types DemoHost.ops DemoHost.goodBootstrap = Ok k
    /\ Forall2 (fun u n => url2node u = Ok n)
         (Svc.LocalNode_V5Bootstrap DemoHost.goodBootstrap) nodes
    /\ @enode_OpenDB NodeAddress.lib DemoHost.types DemoHost.ops
         (Svc.LocalNode_DbPath DemoHost.goodBootstrap) = Ok d
    /\ Svc.cfg (Svc.nec w1) = Some (mkConfig (Some k) (map Some nodes))
    /\ Svc.db (Svc.nec w1) = Some d
    /\ Svc.trace w1 = Svc.trace DemoHost.fresh.
Proof.
  intros w1.
  apply (@ready_after_init_is_configured NodeAddress.lib DemoHost.types DemoHost.ops
           DemoHost.goodBootstrap DemoHost.fresh w1); reflexivity.
Defined.

Lemma init_success_state_witness :
  Svc.init DemoHost.goodBootstrap DemoHost.fresh =
    Some (tt, Svc.mkWorld
                (Svc.mkCrawler
                   (Some (mkConfig (Some 7)
                            [Some (NodeAddress.mkAddr "abc" "1.2.3.4" 30303);
                             Some (NodeAddress.mkAddr "def" "5.6.7.8" 30304)]))
                   (Some "") None None true (Some (mkChan 1 [])))
                []).
Proof.
  apply (@init_success_state NodeAddress.lib DemoHost.types DemoHost.ops
           DemoHost.goodBootstrap DemoHost.fresh 7
           [NodeAddress.mkAddr "abc" "1.2.3.4" 30303;
            NodeAddress.mkAddr "def" "5.6.7.8" 30304] "").
  - reflexivity.
  - repeat constructor.
  - reflexivity.
Defined.

Lemma configure_stops_at_first_failure_witness :
  (exists w',
      @Svc.configure NodeAddress.lib DemoHost.types FaultyHost.ops
        DemoHost.badBootstrap DemoHost.fresh = Some (Some "entropy source failed", w')
      /\ Svc.cfg (Svc.nec w') = Some (mkConfig None [])
      /\ Svc.db (Svc.nec w') = None /\ Svc.trace w' = [])
  /\ (exists w',
        @Svc.configure NodeAddress.lib DemoHost.types DemoHost.ops
          DemoHost.badBootstrap DemoHost.fresh
          = Some (Some "invalid enode url [http://x]", w')
        /\ Svc.cfg (Svc.nec w') =
             Some (mkConfig (Some 42)
                     [Some (NodeAddress.mkAddr "abc" "1.2.3.4" 30303); None; None])
        /\ Svc.db (Svc.nec w') = None /\ Svc.trace w' = []).
Proof.
  split.
  - destruct (@configure_stops_at_first_failure NodeAddress.lib DemoHost.types
                FaultyHost.ops DemoHost.badBootstrap DemoHost.fresh) as [Hkey _].
    apply (Hkey "entropy source failed"). reflexivity.
  - destruct (@configure_stops_at_first_failure NodeAddress.lib DemoHost.types
                DemoHost.ops DemoHost.badBootstrap DemoHost.fresh) as [_ Hboot].
    apply (Hboot 42 ["enode://abc@1.2.3.4:30303"] "http://x"
                 ["enode://def@5.6.7.8:30304"]
                 [NodeAddress.mkAddr "abc" "1.2.3.4" 30303]
                 "invalid enode url [http://x]").
    + reflexivity.
    + reflexivity.
    + repeat constructor.
    + reflexivity.
Defined.

Lemma registry_failure_logged_twice_witness :
  exists w1,
    @Svc.init NodeAddress.lib DemoHost.types FaultyHost.ops
      DemoHost.goodBootstrap DemoHost.fresh = Some (tt, w1)
    /\ Svc.trace w1 =
         [] ++ [EvCritical "can not open node database; resource temporarily unavailable";
                EvCritical "can not run local discovery; resource temporarily unavailable"]
    /\ Svc.cfg (Svc.nec w1) =
         Some (mkConfig (Some 7)
                 [Some (NodeAddress.mkAddr "abc" "1.2.3.4" 30303);
                  Some (NodeAddress.mkAddr "def" "5.6.7.8" 30304)])
    /\ Svc.db (Svc.nec w1) = None
    /\ Svc.isReady (Svc.nec w1) = false.
Proof.
  apply (@registry_failure_logged_twice NodeAddress.lib DemoHost.types FaultyHost.ops
           DemoHost.goodBootstrap DemoHost.fresh 7
           [NodeAddress.mkAddr "abc" "1.2.3.4" 30303;
            NodeAddress.mkAddr "def" "5.6.7.8" 30304]
           "resource temporarily unavailable").
  - reflexivity.
  - repeat constructor.
  - reflexivity.
Defined.

Lemma isReady_never_reset_witness :
  exists w',
    @Svc.init NodeAddress.lib DemoHost.types FaultyHost.ops
      DemoHost.badBootstrap FaultyHost.ready = Some (tt, w')
    /\ Svc.cfg (Svc.nec w') = Some (mkConfig None [])
    /\ Svc.isReady (Svc.nec w') = true.
Proof.
  eexists. split; [reflexivity|]. split; [reflexivity|].
  apply (@isReady_never_reset NodeAddress.lib DemoHost.types FaultyHost.ops
           DemoHost.badBootstrap FaultyHost.ready).
  - reflexivity.
  - left. reflexivity.
Defined.

Lemma run_outcomes_witness :
  let w := FaultyHost.ready in
  let w' := Svc.mkWorld
              (Svc.set_node (Some (@NewLocalNode DemoHost.types (Some "") (Some 7)))
                            (Svc.nec w))
              [EvNewLocalNode;
               EvCritical "can not open p2p node socket at [0.0.0.0:5050]; address already in use";
               notReady] in
  Svc.isReady (Svc.nec w') = Svc.isReady (Svc.nec w)
  /\ Svc.cfg (Svc.nec w') = Svc.cfg (Svc.nec w)
  /\ Svc.db (Svc.nec w') = Svc.db (Svc.nec w)
  /\ exists evs,
       Svc.trace w' = Svc.trace w ++ evs
       /\ ((Svc.isReady (Svc.nec w) = false /\ evs = [notReady] /\ Svc.nec w' = Svc.nec w)
           \/ (Svc.isReady (Svc.nec w) = true
               /\ (exists msg, evs = [EvNewLocalNode; EvCritical msg; notReady])
               /\ Svc.node (Svc.nec w') <> None)
           \/ (Svc.isReady (Svc.nec w) = true
               /\ evs = [EvNewLocalNode; EvStarted Svc.name; EvGo "crawl"]
               /\ Svc.node (Svc.nec w') <> None /\ Svc.disc (Svc.nec w') <> None)).
Proof.
  intros w w'.
  apply (@run_outcomes NodeAddress.lib DemoHost.types FaultyHost.ops
           DemoHost.goodBootstrap w w').
  reflexivity.
Defined.


(** ** The older version of the service *)
Section MoreLachesisFacts.
Context `{EnodeLib} `{HostTypes} `{!HostOps}.
Import Lachesis.
Variable Cfg : AppConfig.

Lemma firstError_none_iff (urls : list string) :
  firstError urls = None <-> Forall (fun u => is_ok (url2node u) = true) urls.
Proof.
  induction urls as [|u urls IH]; cbn.
  - split; [constructor | reflexivity].
  - destruct (url2node u) as [n|e] eqn:Hu.
    + rewrite IH. split; [intros Hall; constructor; [now rewrite Hu | exact Hall]|].
      intros Hall. now inversion Hall.
    + split; [discriminate|]. intros Hall. inversion Hall as [|? ? Hbad _]; subst.
      rewrite Hu in Hbad. discriminate.
Qed.

Lemma Lachesis_configure_eval (w : world) :
  let key := if String.eqb (Lachesis_NodeKey Cfg) ""
             then crypto_GenerateKey
             else crypto_HexToECDSA (Lachesis_NodeKey Cfg) in
  let bn := parsedUntilError (Lachesis_V5Bootstrap Cfg)
            ++ replicate (length (Lachesis_V5Bootstrap Cfg)
                          - length (parsedUntilError (Lachesis_V5Bootstrap Cfg))) None in
  configure Cfg w =
    match key with
    | Err e =>
        Some (Some e, mkWorld (mkCrawler (Some (mkConfig None []))
                                         (isReady (nec w)) (sigStop (nec w))) (trace w))
    | Ok k =>
        Some (firstError (Lachesis_V5Bootstrap Cfg),
              mkWorld (mkCrawler (Some (mkConfig (Some k) bn))
                                 (isReady (nec w)) (sigStop (nec w))) (trace w))
    end.
Proof.
  intros key bn. unfold configure. unfold bind at 1. unfold update at 1, modify.
  set (w0 := mkWorld _ _).
  assert (Hc0 : cfg (nec w0) = Some (mkConfig None [])) by reflexivity.
  unfold bind at 1. rewrite (Lachesis_setPrivateKey_run Cfg w0 _ Hc0). cbn zeta.
  fold key. destruct key as [k|e]; cbn [failure value]; [|reflexivity].
  set (w1 := mkWorld _ _).
  assert (Hc1 : cfg (nec w1) = Some (mkConfig (Some k) [])) by reflexivity.
  unfold bind at 1. rewrite (Lachesis_setBootstrap_run Cfg w1 _ Hc1).
  fold bn. destruct (firstError (Lachesis_V5Bootstrap Cfg)); reflexivity.
Qed.

(** X14: in the version reading [cfg.Lachesis], [init] of a crawler that is
    not ready never panics and makes it ready exactly when the key is
    resolved (generated, or parsed from the configured hex string) and every
    bootstrap URL parses; the [run] that follows changes nothing in the
    crawler and starts nothing: it is silent when the crawler is ready and
    logs one line when it is not. *)
Theorem Lachesis_init_ready_iff (w : world) :
  isReady (nec w) = false ->
  let key := if String.eqb (Lachesis_NodeKey Cfg) ""
             then crypto_GenerateKey
             else crypto_HexToECDSA (Lachesis_NodeKey Cfg) in
  exists w1 w2,
    init Cfg w = Some (tt, w1)
    /\ (isReady (nec w1) = true
        <-> is_ok key = true
            /\ Forall (fun u => is_ok (url2node u) = true) (Lachesis_V5Bootstrap Cfg))
    /\ run w1 = Some (tt, w2)
    /\ nec w2 = nec w1
    /\ trace w2 = trace w1
                  ++ (if isReady (nec w1) then []
                      else [EvCritical "network crawler not ready and will not run"]).
Proof.
  intros Hr key.
  pose proof (firstError_none_iff (Lachesis_V5Bootstrap Cfg)) as Hfe.
  assert (Hinit : exists w1,
             init Cfg w = Some (tt, w1)
             /\ (isReady (nec w1) = true
                 <-> is_ok key = true
                     /\ Forall (fun u => is_ok (url2node u) = true) (Lachesis_V5Bootstrap Cfg))).
  { unfold init. unfold bind at 1. unfold update at 1, modify.
    unfold bind. rewrite Lachesis_configure_eval. cbn zeta. fold key.
    destruct key as [k|e]; cbn [is_ok].
    - destruct (firstError (Lachesis_V5Bootstrap Cfg)) as [e|].
      + eexists. split; [reflexivity|]. cbn. rewrite Hr.
        split; [discriminate|]. intros [_ Hall]. apply Hfe in Hall. discriminate.
      + eexists. split; [reflexivity|]. cbn.
        split; [intros _; split; [reflexivity | now apply Hfe] | reflexivity].
    - eexists. split; [reflexivity|]. cbn. rewrite Hr.
      split; [discriminate | intros [Hx _]; discriminate]. }
  destruct Hinit as (w1 & Hw1 & Hiff).
  exists w1.
  exists (mkWorld (nec w1)
            (trace w1 ++ (if isReady (nec w1) then []
                          else [EvCritical "network crawler not ready and will not run"]))).
  split; [exact Hw1|]. split; [exact Hiff|].
  split; [|split; reflexivity].
  unfold run, bind, get. destruct (isReady (nec w1)); cbn.
  - rewrite app_nil_r. now destruct w1.
  - reflexivity.
Qed.
End MoreLachesisFacts.

Lemma Lachesis_init_ready_iff_witness :
  exists w1 w2,
    Lachesis.init DemoHost.hexKey DemoHost.allocated0 = Some (tt, w1)
    /\ (Lachesis.isReady (Lachesis.nec w1) = true
        <-> is_ok (Ok 42 : result Z) = true
            /\ Forall (fun u => is_ok (url2node u) = true)
                 ["enode://abc@1.2.3.4:30303"; "enode://def@5.6.7.8:30304"])
    /\ Lachesis.run w1 = Some (tt, w2)
    /\ Lachesis.nec w2 = Lachesis.nec w1
    /\ Lachesis.trace w2 =
         Lachesis.trace w1
         ++ (if Lachesis.isReady (Lachesis.nec w1) then []
             else [EvCritical "network crawler not ready and will not run"]).
Proof.
  apply (@Lachesis_init_ready_iff NodeAddress.lib DemoHost.types DemoHost.ops
           DemoHost.hexKey DemoHost.allocated0).
  reflexivity.
Defined.

(** ** The repository proxy *)
Section RepositoryFacts.
Context `{RepoHost}.
Import Repository.

(** [New], bridge by bridge. *)
Lemma New_eval (cfg : config_Config) (tr : list action) :
  New cfg tr =
    match cache_New cfg with
    | Err e =>
        Some ((None, Some e),
              tr ++ [CacheNew; Criticalf ("can not create in-memory cache bridge, " +:+ e)])
    | Ok ca =>
        match db_New cfg with
        | Err e =>
            Some ((None, Some e),
                  tr ++ [CacheNew; DbNew;
                         Criticalf ("can not connect backend persistent storage, " +:+ e)])
        | Ok d =>
            match rpc_New cfg with
            | Err e =>
                Some ((None, Some e),
                      tr ++ [CacheNew; DbNew; RpcNew;
                             Criticalf ("can not connect Lachesis RPC interface, " +:+ e)])
            | Ok r =>
                Some ((Some (mkProxy (Some ca) (Some d) (Some r) ScanBlockChain), None),
                      tr ++ [CacheNew; DbNew; RpcNew; SetBalance; StartScanner])
            end
        end
    end.
Proof.
  unfold New, act, bind, modify, ret.
  destruct (cache_New cfg) as [ca|e]; [|now rewrite <- !app_assoc].
  destruct (db_New cfg) as [d|e]; [|now rewrite <- !app_assoc].
  destruct (rpc_New cfg) as [r|e]; now rewrite <- !app_assoc.
Qed.

(** X15: [New] hands out a repository exactly when it returns no error, and
    that is exactly when the cache, database and RPC bridges all connect.  A
    bridge is only built once the ones before it are there, the scanner is
    started only on success, every failure is logged once, and a bridge that
    was built before a later one failed is not closed again. *)
Theorem New_outcome (cfg : config_Config) (tr : list action) :
  exists p err evs,
    New cfg tr = Some ((p, err), tr ++ evs)
    /\ (p <> None <-> err = None)
    /\ (err = None
        <-> is_ok (cache_New cfg) = true /\ is_ok (db_New cfg) = true
            /\ is_ok (rpc_New cfg) = true)
    /\ (In DbNew evs <-> is_ok (cache_New cfg) = true)
    /\ (In RpcNew evs <-> is_ok (cache_New cfg) = true /\ is_ok (db_New cfg) = true)
    /\ (In StartScanner evs <-> err = None)
    /\ (forall e, err = Some e -> exists msg, last evs = Some (Criticalf msg))
    /\ ~ In DbClose evs /\ ~ In RpcClose evs.
Proof.
  rewrite New_eval.
  destruct (cache_New cfg) as [ca|e]; [destruct (db_New cfg) as [d|e];
    [destruct (rpc_New cfg) as [r|e]|]|];
    do 3 eexists; (split; [reflexivity|]); cbn;
    repeat split; try discriminate; try congruence; try tauto;
    try (intros; exfalso; intuition discriminate);
    try (intros; intuition discriminate);
    try (intros; eexists; reflexivity);
    intuition (try discriminate; eauto).
Qed.

(** X16: a repository handed out by [New] can be closed without a panic:
    [Close] signals the scanner when it has a stop channel, waits for the
    background jobs, and only then closes the database and the RPC bridge,
    in that order and once each. *)
Theorem Close_after_New (cfg : config_Config) (tr tr1 : list action) (p : proxy) :
  New cfg tr = Some ((Some p, None), tr1) ->
  Close p tr1 =
    Some (tt, tr1
              ++ [Debugf "sending terminate signal to the scanner"]
              ++ match sigScannerStop p with Some _ => [SendStop true] | None => [] end
              ++ [Debugf "waiting for repository to finish background jobs";
                  WaitGroupWait; DbClose; RpcClose]).
Proof.
  rewrite New_eval.
  destruct (cache_New cfg) as [ca|e]; [|discriminate].
  destruct (db_New cfg) as [d|e]; [|discriminate].
  destruct (rpc_New cfg) as [r|e]; [|discriminate].
  intros Hx. injection Hx as <- <-.
  unfold Close, act, bind, modify, ret. cbn.
  destruct ScanBlockChain; cbn; now rewrite <- !app_assoc.
Qed.
End RepositoryFacts.

Lemma Close_after_New_witness :
  let p := Repository.mkProxy (Some "cache") (Some "mongo") (Some "opera")
                              (Some (mkChan 0 [])) in
  let tr1 := [Repository.CacheNew; Repository.DbNew; Repository.RpcNew;
              Repository.SetBalance; Repository.StartScanner] in
  Repository.Close p tr1 =
    Some (tt, tr1
              ++ [Repository.Debugf "sending terminate signal to the scanner"]
              ++ [Repository.SendStop true]
              ++ [Repository.Debugf "waiting for repository to finish background jobs";
                  Repository.WaitGroupWait; Repository.DbClose; Repository.RpcClose]).
Proof.
  intros p tr1.
  apply (@Close_after_New DemoRepo.host tt [] tr1 p). reflexivity.
Defined.

(** ** Calling [run] again *)
Section RepeatedRun.
Context `{EnodeLib} `{HostTypes} `{!HostOps}.
Import Svc.
Variable Cfg : AppConfig.

End RepeatedRun.

